(** * pybind11/embed.h: embedding the interpreter

    A shallow embedding of [include/pybind11/embed.h].  The header is a thin
    layer over the CPython C API, so the development has three layers:

    - [Platform]: what is fixed when the header is compiled or linked
      (version macros, the locale's converters, the decisions of the
      runtime that the header cannot see);
    - the process state ([world]) with the C API calls the header makes,
      each one a step of a small state-and-exception monad that also keeps
      a log of the calls;
    - the functions of the header itself, written against that API in the
      order of the C++ text. *)

From Stdlib Require Import ZArith.
From stdpp Require Import base option list strings gmap.

Local Open Scope Z_scope.

(** ** Host-side data *)

(** A [char*] argument is the bytes before its terminating NUL, a
    [wchar_t*] one the wide characters before its terminator. *)
Abbreviation cstring := (list Byte.byte).
Abbreviation wstring := (list N).

(** The address of a module initialiser ([init_t] is a function pointer). *)
Abbreviation init_t := positive.

(** A module object ([m.ptr()]), known by its name. *)
Abbreviation pymodule := string.

(** What a C++ [throw] can carry across this header.  [error_already_set]
    derives from [std::runtime_error]; [pybind11_fail] throws a
    [std::runtime_error]; a thrown value of any other type (an [int], a
    user class without the standard base) is [non_std_exception]. *)
Inductive exception : Type :=
| error_already_set (what : string)
| runtime_error (what : string)
| std_exception (what : string)
| non_std_exception (payload : Z).

Definition what (e : exception) : option string :=
  match e with
  | error_already_set s | runtime_error s | std_exception s => Some s
  | non_std_exception _ => None
  end.

(** Objects of the runtime as far as this header tells them apart: a
    capsule carries a native pointer, which the runtime never lets be
    null. *)
Inductive pyobject : Type :=
| PyCapsule (pointer : positive)
| PyOther (ident : positive).

Definition isinstance_capsule (o : pyobject) : bool :=
  match o with PyCapsule _ => true | PyOther _ => false end.

(** The argument array handed to the runtime: [char**] on Python 2,
    [wchar_t**] on Python 3. *)
Inductive argv_array : Type :=
| narrow_argv (args : list cstring)
| wide_argv (args : list wstring).

Inductive pyexc_type : Type := PyExc_ImportError.

(** ** The process *)

(** State owned by the embedded runtime. [PyImport_Inittab] is a table of
    the process and outlives the interpreter; the other fields live from
    [Py_InitializeEx] to [Py_Finalize]. *)
Record runtime : Type := Runtime {
  py_initialized : bool;
  PyImport_Inittab : list (string * init_t);
  sys_argv : option argv_array;
  sys_path : list string;
  py_builtins : gmap string pyobject;
  py_modules : list string;
  py_error : option (pyexc_type * string)
}.

(** State owned by the binding layer: the static [internals_pp] of
    [get_internals_pp], the pointer cells ([internals**] dereferenced: an
    absent key is a cell holding [nullptr]) and the [internals] objects
    currently allocated. *)
Record heap : Type := Heap {
  internals_pp : option positive;
  cells : gmap positive positive;
  live_internals : gset positive
}.

(** The calls and memory operations a run performs, in order. *)
Inductive event : Type :=
| Call_Py_InitializeEx (initsigs : Z)
| Call_Py_Finalize
| Call_PyImport_AppendInittab (name : string) (init : init_t)
| Call_PySys_SetArgv (argc : Z) (argv : argv_array)
| Call_PySys_SetArgvEx (argc : Z) (argv : argv_array) (updatepath : Z)
| Call_sys_path_pop
| Call_PyEval_GetBuiltins
| Call_get_internals_pp
| Call_builtins_contains (id : string)
| Call_capsule_pointer (id : string)
| Call_module_ctor (name : string)
| Call_PyErr_SetString (ty : pyexc_type) (msg : string)
| Op_delete (p : option positive)
| Op_store_null (cell : positive).

Record world : Type := World {
  rt : runtime;
  hp : heap;
  trace : list event
}.

(** How a call ends: it returns, it throws, the runtime ends the process
    ([Py_FatalError]), or the C++ text has no defined behaviour there (a
    read past the end of [argv], a C API call without a thread state). *)
Inductive outcome (A : Type) : Type :=
| Returns (a : A) (w : world)
| Throws (e : exception) (w : world)
| Terminates (w : world)
| Undefined.
Arguments Returns {A} a w.
Arguments Throws {A} e w.
Arguments Terminates {A} w.
Arguments Undefined {A}.

Definition M (A : Type) : Type := world -> outcome A.

#[global] Instance M_ret : MRet M := fun A a w => Returns a w.
#[global] Instance M_bind : MBind M := fun A B k m w =>
  match m w with
  | Returns a w' => k a w'
  | Throws e w' => Throws e w'
  | Terminates w' => Terminates w'
  | Undefined => Undefined
  end.

Definition throw {A} (e : exception) : M A := fun w => Throws e w.
Definition undefined {A} : M A := fun _ => Undefined.
Definition log (ev : event) : M unit :=
  fun w => Returns tt (World (rt w) (hp w) (trace w ++ [ev])).
Definition get_rt : M runtime := fun w => Returns (rt w) w.
Definition get_hp : M heap := fun w => Returns (hp w) w.
Definition put_rt (r : runtime) : M unit :=
  fun w => Returns tt (World r (hp w) (trace w)).
Definition put_hp (h : heap) : M unit :=
  fun w => Returns tt (World (rt w) h (trace w)).

(** [try { body } catch ...]: the handler says which exceptions it
    catches; the others keep propagating. *)
Definition try_catch {A} (body : M A) (handler : exception -> option (M A)) : M A :=
  fun w =>
    match body w with
    | Throws e w' =>
        match handler e with
        | Some h => h w'
        | None => Throws e w'
        end
    | r => r
    end.

(** Field updates of [runtime] and [heap]. *)
Definition set_inittab (t : list (string * init_t)) (r : runtime) : runtime :=
  Runtime (py_initialized r) t (sys_argv r) (sys_path r) (py_builtins r)
          (py_modules r) (py_error r).
Definition set_sys_argv (a : option argv_array) (r : runtime) : runtime :=
  Runtime (py_initialized r) (PyImport_Inittab r) a (sys_path r) (py_builtins r)
          (py_modules r) (py_error r).
Definition set_sys_path (p : list string) (r : runtime) : runtime :=
  Runtime (py_initialized r) (PyImport_Inittab r) (sys_argv r) p (py_builtins r)
          (py_modules r) (py_error r).
Definition set_modules (ms : list string) (r : runtime) : runtime :=
  Runtime (py_initialized r) (PyImport_Inittab r) (sys_argv r) (sys_path r)
          (py_builtins r) ms (py_error r).
Definition set_error (e : option (pyexc_type * string)) (r : runtime) : runtime :=
  Runtime (py_initialized r) (PyImport_Inittab r) (sys_argv r) (sys_path r)
          (py_builtins r) (py_modules r) e.
Definition set_cells (c : gmap positive positive) (h : heap) : heap :=
  Heap (internals_pp h) c (live_internals h).
Definition set_live (l : gset positive) (h : heap) : heap :=
  Heap (internals_pp h) (cells h) l.

(** ** The platform *)

(** Everything the header takes from its environment.  The version macros
    select the [#if] branches; the converters are the C library's and the
    runtime's; the remaining fields are decisions of the runtime that the
    header only observes (whether an allocation fails, what the teardown
    of the interpreter does to the binding layer's memory). *)
Class Platform : Type := {
  PY_VERSION_HEX : Z;
  HAVE_BROKEN_MBSTOWCS : bool;
  PYBIND11_INTERNALS_ID : string;
  (** [Py_DecodeLocale(arg, nullptr)]: [None] is a null result. *)
  Py_DecodeLocale : cstring -> option wstring;
  (** [mbstowcs(nullptr, arg, 0)]: [None] is [(size_t)-1]. *)
  mbstowcs_count : cstring -> option nat;
  (** the wide string left in a fresh buffer of [n] wide characters by
      [mbstowcs(buffer, arg, n)]. *)
  mbstowcs_fill : cstring -> nat -> wstring;
  (** [PyImport_AppendInittab] cannot grow the table. *)
  inittab_alloc_fails : list (string * init_t) -> bool;
  (** [Py_InitializeEx] cannot bring the interpreter up. *)
  init_fails : runtime -> bool;
  (** the interpreter as [Py_InitializeEx] leaves it. *)
  default_sys_path : list string;
  fresh_builtins : gmap string pyobject;
  (** the entry [PySys_SetArgvEx] prepends to [sys.path]: the directory of
      the script named by [argv[0]], or the empty string. *)
  script_dir : argv_array -> string;
  (** [PyModule_Create] returns null. *)
  module_create_fails : runtime -> string -> bool;
  (** what the destructors run by [Py_Finalize] do to the binding layer's
      memory (they can call [get_internals()] and so create it). *)
  finalize_teardown : runtime -> heap -> heap
}.

(** [PY_MAJOR_VERSION] is the top byte of [PY_VERSION_HEX] (CPython's
    [patchlevel.h]). *)
Definition PY_MAJOR_VERSION {P : Platform} : Z :=
  Z.land (Z.shiftr PY_VERSION_HEX 24) 255.

Section CAPI.
Context {P : Platform}.

(** Modelled from the spec: [pybind11_fail] is defined in
    [detail/common.h], which is not part of the sources at hand. Its
    callers fail with an error that is catchable at the call site: it
    throws a [std::runtime_error] carrying [reason]. *)
Definition pybind11_fail {A} (reason : string) : M A :=
  throw (runtime_error reason).

Definition Py_IsInitialized : M bool :=
  r ← get_rt; mret (py_initialized r).

(** Returns [0], or [-1] when the table cannot be extended; a new entry
    goes to the end of the table. *)
Definition PyImport_AppendInittab (name : string) (init : init_t) : M Z :=
  log (Call_PyImport_AppendInittab name init);;
  r ← get_rt;
  if inittab_alloc_fails (PyImport_Inittab r) then mret (-1)
  else put_rt (set_inittab (PyImport_Inittab r ++ [(name, init)]) r);; mret 0.

(** The other calls follow the CPython documentation of each. *)

(** Brings the interpreter up, or ends the process when it cannot; a no-op
    on an interpreter that is already up. *)
Definition Py_InitializeEx (initsigs : Z) : M unit :=
  log (Call_Py_InitializeEx initsigs);;
  r ← get_rt;
  if py_initialized r then mret tt
  else if init_fails r then (fun w => Terminates w)
  else put_rt (Runtime true (PyImport_Inittab r) None default_sys_path
                       fresh_builtins [] None).

(** Sets [sys.argv] from the first [argc] entries of [argv]; with a
    non-zero [updatepath] also prepends an entry to [sys.path]. *)
Definition sys_set_argv (argc : Z) (argv : argv_array) (updatepath : Z) : M unit :=
  let n := Z.to_nat argc in
  let enough :=
    match argv with
    | narrow_argv l => bool_decide (n ≤ length l)%nat
    | wide_argv l => bool_decide (n ≤ length l)%nat
    end in
  if enough then
    let taken :=
      match argv with
      | narrow_argv l => narrow_argv (take n l)
      | wide_argv l => wide_argv (take n l)
      end in
    r ← get_rt;
    let r := set_sys_argv (Some taken) r in
    put_rt (if updatepath =? 0 then r
            else set_sys_path (script_dir taken :: sys_path r) r)
  else undefined.

Definition PySys_SetArgvEx (argc : Z) (argv : argv_array) (updatepath : Z) : M unit :=
  log (Call_PySys_SetArgvEx argc argv updatepath);;
  sys_set_argv argc argv updatepath.

(** [PySys_SetArgv] is [PySys_SetArgvEx] with [updatepath] set to 1. *)
Definition PySys_SetArgv (argc : Z) (argv : argv_array) : M unit :=
  log (Call_PySys_SetArgv argc argv);;
  sys_set_argv argc argv 1.

(** [module::import("sys").attr("path").attr("pop")()]: Python's
    [list.pop] called without an index removes the last element, and
    raises [IndexError] on an empty list. *)
Definition sys_path_pop : M unit :=
  log Call_sys_path_pop;;
  r ← get_rt;
  match sys_path r with
  | [] => throw (error_already_set "IndexError: pop from empty list")
  | _ :: _ => put_rt (set_sys_path (removelast (sys_path r)) r)
  end.

(** The built-in namespace of the running interpreter; there is none to
    return once the interpreter is down. *)
Definition PyEval_GetBuiltins : M (gmap string pyobject) :=
  log Call_PyEval_GetBuiltins;;
  r ← get_rt;
  if py_initialized r then mret (py_builtins r) else undefined.

(** Tears the interpreter down (a no-op when it is not up): the objects of
    the interpreter are gone, and their destructors have done to the
    binding layer's memory whatever [finalize_teardown] says. The table of
    built-in modules is the process's and stays. *)
Definition Py_Finalize : M unit :=
  log Call_Py_Finalize;;
  r ← get_rt;
  if py_initialized r then
    h ← get_hp;
    put_hp (finalize_teardown r h);;
    put_rt (Runtime false (PyImport_Inittab r) None [] ∅ [] None)
  else mret tt.

Definition PyErr_SetString (ty : pyexc_type) (msg : string) : M unit :=
  log (Call_PyErr_SetString ty msg);;
  r ← get_rt; put_rt (set_error (Some (ty, msg)) r).

(** Modelled from the spec: the constructor [pybind11::module(name)] is
    defined in [pybind11.h], which is not part of the sources at hand. It
    belongs to the value-wrapping layer: it makes a new module object, and
    fails through [pybind11_fail] when the runtime cannot create one. *)
Definition module_ctor (name : string) : M string :=
  log (Call_module_ctor name);;
  r ← get_rt;
  if module_create_fails r name then
    pybind11_fail "Internal error in module::module()"
  else put_rt (set_modules (py_modules r ++ [name]) r);; mret name.

(** *** The binding layer's own helpers *)

(** Modelled from the spec: [detail::get_internals_pp] is declared in
    [detail/internals.h], which is not part of the sources at hand.  It
    fetches the pointer-to-pointer without forcing creation of a new
    internals object: a read of the static. *)
Definition get_internals_pp : M (option positive) :=
  log Call_get_internals_pp;;
  h ← get_hp; mret (internals_pp h).

(** [delete p]: nothing for a null pointer, else the object is released. *)
Definition delete_internals (p : option positive) : M unit :=
  log (Op_delete p);;
  match p with
  | None => mret tt
  | Some a => h ← get_hp; put_hp (set_live (live_internals h ∖ {[a]}) h)
  end.

Definition load_cell (cell : positive) : M (option positive) :=
  h ← get_hp; mret (cells h !! cell).

Definition store_null (cell : positive) : M unit :=
  log (Op_store_null cell);;
  h ← get_hp; put_hp (set_cells (delete cell (cells h)) h).

End CAPI.

(** ** The header *)

Section Embed.
Context {P : Platform}.

(** *** [PYBIND11_EMBEDDED_MODULE(name, variable) { body }]

    The macro declares the body [pybind11_init_name], wraps it in
    [pybind11_init_wrapper_name], exports the wrapper with C linkage as
    [pybind11_init_impl_name] and constructs a static [embedded_module]
    from the name and the address of that export. *)

(** The two [catch] clauses of the wrapper: [error_already_set] first,
    then [const std::exception &]. There is no [catch (...)]. *)
Definition init_wrapper_handler (e : exception) : option (M (option pymodule)) :=
  match e with
  | error_already_set msg =>
      Some (PyErr_SetString PyExc_ImportError msg;; mret None)
  | _ =>
      match what e with
      | Some msg => Some (PyErr_SetString PyExc_ImportError msg;; mret None)
      | None => None
      end
  end.

(** [None] is the [nullptr] result. *)
Definition pybind11_init_wrapper (name : string) (pybind11_init : pymodule -> M unit)
  : M (option pymodule) :=
  m ← module_ctor name;
  try_catch (pybind11_init m;; mret (Some m)) init_wrapper_handler.

(** [PYBIND11_EMBEDDED_MODULE_IMPL]: on Python 3 the export returns the
    wrapper's result, on Python 2 it returns [void] (the outer [None]). *)
Definition pybind11_init_impl (name : string) (pybind11_init : pymodule -> M unit)
  : M (option (option pymodule)) :=
  if 3 <=? PY_MAJOR_VERSION then
    r ← pybind11_init_wrapper name pybind11_init; mret (Some r)
  else
    pybind11_init_wrapper name pybind11_init;; mret None.

(** Python 2.7/3.x compatible version of [PyImport_AppendInittab] and
    error checks: the constructor of [detail::embedded_module]. *)
Definition embedded_module (name : string) (init : init_t) : M unit :=
  b ← Py_IsInitialized;
  if b : bool then
    pybind11_fail "Can't add new modules after the interpreter has been initialized"
  else
    result ← PyImport_AppendInittab name init;
    if result =? -1 then pybind11_fail "Insufficient memory to add a new module"
    else mret tt.

(** The static object [pybind11_module_name]. *)
Definition PYBIND11_EMBEDDED_MODULE (name : string) (impl : init_t) : M unit :=
  embedded_module name impl.

(** *** Widening of arguments *)

Inductive deallocator : Type := PyMem_RawFree | delete_array.

Definition wide_char_arg_deleter : deallocator :=
  if 0x030500f0 <=? PY_VERSION_HEX then PyMem_RawFree else delete_array.

(** [None] is the [nullptr] result. *)
Definition widen_chars (safe_arg : cstring) : option wstring :=
  if 0x030500f0 <=? PY_VERSION_HEX then Py_DecodeLocale safe_arg
  else
    let count :=
      if HAVE_BROKEN_MBSTOWCS then Some (length safe_arg)
      else mbstowcs_count safe_arg in
    match count with
    | Some count => Some (mbstowcs_fill safe_arg (count + 1))
    | None => None
    end.

(** *** [set_interpreter_argv] *)

(** The [for] loop over [ii < argv_size]: [n] iterations are left, [done]
    holds [widened_argv[0 .. ii)]. *)
Inductive widened : Type :=
| Widened (widened_argv : list wstring)
| GaveUp
| PastTheEnd.

Fixpoint widen_loop (n ii : nat) (safe_argv : list cstring) (done : list wstring)
  : widened :=
  match n with
  | O => Widened done
  | S n' =>
      match safe_argv !! ii with
      | None => PastTheEnd
      | Some arg =>
          match widen_chars arg with
          | None => GaveUp
          | Some w => widen_loop n' (S ii) safe_argv (done ++ [w])
          end
      end
  end.

(** The [#if] that picks between [PySys_SetArgv] followed by a pop and
    [PySys_SetArgvEx]. *)
Definition lacks_PySys_SetArgvEx : bool :=
  (PY_VERSION_HEX <? 0x020606f0)
  || ((PY_MAJOR_VERSION =? 3) && (PY_VERSION_HEX <? 0x030103f0)).

Definition hand_over_argv (argc : Z) (pysys_argv : argv_array)
  (add_current_dir_to_path : bool) : M unit :=
  if lacks_PySys_SetArgvEx then
    PySys_SetArgv argc pysys_argv;;
    if negb add_current_dir_to_path then sys_path_pop else mret tt
  else
    PySys_SetArgvEx argc pysys_argv (if add_current_dir_to_path then 1 else 0).

(** [argv] is [None] for a null pointer. The pair is [(safe_argv, argc)]
    after the special case for an empty or null [argv]. *)
Definition safe_arguments (argc : Z) (argv : option (list cstring))
  : list cstring * Z :=
  match argv with
  | None => ([[]], 1)
  | Some a => if argc <=? 0 then ([[]], 1) else (a, argc)
  end.

Definition set_interpreter_argv (argc : Z) (argv : option (list cstring))
  (add_current_dir_to_path : bool) : M unit :=
  let '(safe_argv, argc) := safe_arguments argc argv in
  if 3 <=? PY_MAJOR_VERSION then
    let argv_size := Z.to_nat argc in
    match widen_loop argv_size 0 safe_argv [] with
    | GaveUp => mret tt
    | PastTheEnd => undefined
    | Widened widened_argv =>
        hand_over_argv argc (wide_argv widened_argv) add_current_dir_to_path
    end
  else
    hand_over_argv argc (narrow_argv safe_argv) add_current_dir_to_path.

(** *** [initialize_interpreter] and [finalize_interpreter] *)

Definition initialize_interpreter (init_signal_handlers : bool) (argc : Z)
  (argv : option (list cstring)) (add_current_dir_to_path : bool) : M unit :=
  b ← Py_IsInitialized;
  if b : bool then pybind11_fail "The interpreter is already running"
  else
    Py_InitializeEx (if init_signal_handlers then 1 else 0);;
    set_interpreter_argv argc argv add_current_dir_to_path.

(** Modelled from the spec: [builtins.contains(id)], [builtins[id]] and
    the conversion of a [capsule] to the pointer it carries are defined in
    [pytypes.h], which is not part of the sources at hand. They are the
    object-model layer used to look for a stashed capsule in the built-in
    namespace. *)
Definition contains (d : gmap string pyobject) (id : string) : M bool :=
  log (Call_builtins_contains id);;
  mret (bool_decide (is_Some (d !! id))).

Definition getitem (d : gmap string pyobject) (id : string) : M pyobject :=
  match d !! id with
  | Some o => mret o
  | None => throw (error_already_set "KeyError")
  end.

Definition capsule_pointer (id : string) (o : pyobject) : M positive :=
  log (Call_capsule_pointer id);;
  match o with
  | PyCapsule p => mret p
  | PyOther _ => pybind11_fail "Unable to extract capsule contents!"
  end.

(** The cell [finalize_interpreter] selects before it calls
    [Py_Finalize]: the capsule of the built-in namespace if there is one,
    else the static. *)
Definition select_cell (builtins : gmap string pyobject) (id : string)
  (internals_ptr_ptr : option positive) : M (option positive) :=
  c ← contains builtins id;
  is_capsule ← (if c : bool then o ← getitem builtins id; mret (isinstance_capsule o)
                else mret false);
  if is_capsule : bool then
    o ← getitem builtins id; p ← capsule_pointer id o; mret (Some p)
  else mret internals_ptr_ptr.

Definition release_cell (internals_ptr_ptr : option positive) : M unit :=
  match internals_ptr_ptr with
  | Some cell =>
      p ← load_cell cell;
      delete_internals p;;
      store_null cell
  | None => mret tt
  end.

Definition finalize_interpreter : M unit :=
  builtins ← PyEval_GetBuiltins;
  let id := PYBIND11_INTERNALS_ID in
  internals_ptr_ptr ← get_internals_pp;
  internals_ptr_ptr ← select_cell builtins id internals_ptr_ptr;
  Py_Finalize;;
  release_cell internals_ptr_ptr.

(** *** [scoped_interpreter] *)

Record scoped_interpreter : Type := Guard { is_valid : bool }.

(** The constructor: [is_valid] takes its default member initialiser. *)
Definition scoped_interpreter_ctor (init_signal_handlers : bool) (argc : Z)
  (argv : option (list cstring)) (add_current_dir_to_path : bool)
  : M scoped_interpreter :=
  initialize_interpreter init_signal_handlers argc argv add_current_dir_to_path;;
  mret (Guard true).

(** The move constructor, as (the new guard, [other] afterwards): its body
    is [other.is_valid = false], and the new guard's [is_valid] takes its
    default member initialiser. *)
Definition scoped_interpreter_move (other : scoped_interpreter)
  : scoped_interpreter * scoped_interpreter :=
  (Guard true, Guard false).

Definition scoped_interpreter_dtor (g : scoped_interpreter) : M unit :=
  if is_valid g then finalize_interpreter else mret tt.

End Embed.

(** ** Reading runs *)

(** The world a run ends in, when it ends in one. *)
Definition final_world {A} (o : outcome A) : option world :=
  match o with
  | Returns _ w | Throws _ w | Terminates w => Some w
  | Undefined => None
  end.

(** The events a run from [w] added to the log. *)
Definition new_events {A} (w : world) (o : outcome A) : list event :=
  match final_world o with
  | Some w' => drop (length (trace w)) (trace w')
  | None => []
  end.

(** The count and the array a call of one of the two set-argv primitives
    was given. *)
Definition handed_argv (ev : event) : option (Z * argv_array) :=
  match ev with
  | Call_PySys_SetArgv n a | Call_PySys_SetArgvEx n a _ => Some (n, a)
  | _ => None
  end.

Definition is_finalize (ev : event) : bool :=
  match ev with Call_Py_Finalize => true | _ => false end.

(** ** Two concrete platforms

    A CPython 3.8.0 and a CPython 3.1.2 in the C locale: a byte below 128
    converts to itself, any other byte does not convert. *)
Module Demo.

Fixpoint ascii_decode (s : cstring) : option wstring :=
  match s with
  | [] => Some []
  | b :: s' =>
      if (Byte.to_N b <? 128)%N then cons (Byte.to_N b) <$> ascii_decode s'
      else None
  end.

Fixpoint ascii_prefix (s : cstring) : wstring :=
  match s with
  | [] => []
  | b :: s' =>
      if (Byte.to_N b <? 128)%N then Byte.to_N b :: ascii_prefix s' else []
  end.

Definition platform (version : Z) : Platform := {|
  PY_VERSION_HEX := version;
  HAVE_BROKEN_MBSTOWCS := false;
  PYBIND11_INTERNALS_ID := "__pybind11_internals_v4__";
  Py_DecodeLocale := ascii_decode;
  mbstowcs_count := fun s => length <$> ascii_decode s;
  mbstowcs_fill := fun s n => take (n - 1) (ascii_prefix s);
  inittab_alloc_fails := fun t => bool_decide (2 ≤ length t)%nat;
  init_fails := fun _ => false;
  default_sys_path := ["/usr/lib/python"; "/usr/lib/python/site-packages"];
  fresh_builtins := ∅;
  script_dir := fun _ => "";
  module_create_fails := fun _ _ => false;
  finalize_teardown := fun _ h => h
|}.

Definition py38 : Platform := platform 0x030800f0.
Definition py31 : Platform := platform 0x030102f0.

(** A CPython 3.8.0 on which a destructor run by [Py_Finalize] calls
    [get_internals()] after the internals have gone: the object that cell
    1 pointed to is replaced by a new one, object 9. *)
Definition py38_recreating : Platform := {|
  PY_VERSION_HEX := 0x030800f0;
  HAVE_BROKEN_MBSTOWCS := false;
  PYBIND11_INTERNALS_ID := "__pybind11_internals_v4__";
  Py_DecodeLocale := ascii_decode;
  mbstowcs_count := fun s => length <$> ascii_decode s;
  mbstowcs_fill := fun s n => take (n - 1) (ascii_prefix s);
  inittab_alloc_fails := fun _ => false;
  init_fails := fun _ => false;
  default_sys_path := ["/usr/lib/python"];
  fresh_builtins := ∅;
  script_dir := fun _ => "";
  module_create_fails := fun _ _ => false;
  finalize_teardown := fun _ h =>
    Heap (internals_pp h) (<[ 1%positive := 9%positive ]> (cells h))
         {[ 9%positive ]}
|}.

Definition bytes (s : string) : cstring := String.list_byte_of_string s.

(** A process before the interpreter is started. *)
Definition down : world :=
  World (Runtime false [] None [] ∅ [] None) (Heap None ∅ ∅) [].

(** A running interpreter whose binding layer has created its internals:
    the static points to cell 1, cell 1 to the internals object 7, and the
    built-in namespace holds a capsule for cell 1. *)
Definition up_with_capsule : world :=
  World (Runtime true [] None ["/usr/lib/python"]
                 {[ "__pybind11_internals_v4__" := PyCapsule 1 ]} [] None)
        (Heap (Some 1%positive) {[ 1%positive := 7%positive ]} {[ 7%positive ]})
        [].

(** A running interpreter in which the binding layer was never used. *)
Definition up_plain : world :=
  World (Runtime true [] None ["/usr/lib/python"] ∅ [] None) (Heap None ∅ ∅) [].

(** An argument that is not ASCII. *)
Definition bad_arg : cstring := [Byte.xff; Byte.xfe].

(** Variants of the platform: with [HAVE_BROKEN_MBSTOWCS], with a runtime
    that cannot come up, with a runtime that cannot create modules. *)
Definition platform_with (version : Z) (broken no_start no_module : bool)
  : Platform := {|
  PY_VERSION_HEX := version;
  HAVE_BROKEN_MBSTOWCS := broken;
  PYBIND11_INTERNALS_ID := "__pybind11_internals_v4__";
  Py_DecodeLocale := ascii_decode;
  mbstowcs_count := fun s => length <$> ascii_decode s;
  mbstowcs_fill := fun s n => take (n - 1) (ascii_prefix s);
  inittab_alloc_fails := fun t => bool_decide (2 ≤ length t)%nat;
  init_fails := fun _ => no_start;
  default_sys_path := ["/usr/lib/python"; "/usr/lib/python/site-packages"];
  fresh_builtins := ∅;
  script_dir := fun _ => "";
  module_create_fails := fun _ _ => no_module;
  finalize_teardown := fun _ h => h
|}.

Definition py27 : Platform := platform 0x020700f0.
Definition py38_no_start : Platform := platform_with 0x030800f0 false true false.
Definition py38_no_module : Platform := platform_with 0x030800f0 false false true.

(** A running interpreter whose built-in namespace stashes a capsule for
    cell 1 while the static points to cell 2; the cells point to the
    internals objects 7 and 8. *)
Definition up_two_cells : world :=
  World (Runtime true [] None ["/usr/lib/python"]
                 {[ "__pybind11_internals_v4__" := PyCapsule 1 ]} [] None)
        (Heap (Some 2%positive)
              {[ 1%positive := 7%positive; 2%positive := 8%positive ]}
              {[ 7%positive; 8%positive ]})
        [].

(** A running interpreter whose built-in namespace holds, under the
    internals identifier, an object that is not a capsule; the static
    points to cell 2. *)
Definition up_not_capsule : world :=
  World (Runtime true [] None ["/usr/lib/python"]
                 {[ "__pybind11_internals_v4__" := PyOther 3 ]} [] None)
        (Heap (Some 2%positive) {[ 2%positive := 8%positive ]} {[ 8%positive ]})
        [].

End Demo.

(** The cell a capsule of the built-in namespace stashes under [id], and
    the cell [finalize_interpreter] goes on to clear: the stashed one if
    there is one, else the static of [get_internals_pp]. *)
Definition stashed_cell (r : runtime) (id : string) : option positive :=
  match py_builtins r !! id with
  | Some (PyCapsule p) => Some p
  | _ => None
  end.

Definition selected_cell (w : world) (id : string) : option positive :=
  match stashed_cell (rt w) id with
  | Some p => Some p
  | None => internals_pp (hp w)
  end.

(** What [finalize_interpreter] logs up to and including [Py_Finalize]. *)
Definition shutdown_prefix (w : world) (id : string) : list event :=
  [Call_PyEval_GetBuiltins; Call_get_internals_pp; Call_builtins_contains id]
  ++ match stashed_cell (rt w) id with
     | Some _ => [Call_capsule_pointer id]
     | None => []
     end
  ++ [Call_Py_Finalize].

(** The interpreter as [Py_Finalize] leaves it. *)
Definition torn_down (r : runtime) : runtime :=
  Runtime false (PyImport_Inittab r) None [] ∅ [] None.

(** The number of entries of an argument array and its first [n] entries:
    what [PySys_SetArgvEx] reads when it is given the count [n]. *)
Definition argv_length (a : argv_array) : nat :=
  match a with
  | narrow_argv l => length l
  | wide_argv l => length l
  end.

Definition argv_take (n : nat) (a : argv_array) : argv_array :=
  match a with
  | narrow_argv l => narrow_argv (take n l)
  | wide_argv l => wide_argv (take n l)
  end.

(** The events [hand_over_argv] logs when the array is long enough, and
    the [sys.path] it leaves, given the entry [d] the runtime prepends. *)
Definition hand_over_events (lacks add : bool) (argc : Z) (argv : argv_array)
  : list event :=
  if lacks then
    Call_PySys_SetArgv argc argv :: (if add then [] else [Call_sys_path_pop])
  else [Call_PySys_SetArgvEx argc argv (if add then 1 else 0)].

Definition hand_over_path (lacks add : bool) (d : string) (path : list string)
  : list string :=
  if add then d :: path
  else if lacks then removelast (d :: path)
  else path.

(** [argv] holds at least the [argc] entries the code will read (after the
    special case for an empty or null [argv], which always does). *)
Definition enough_arguments (argc : Z) (argv : option (list cstring)) : Prop :=
  (Z.to_nat (safe_arguments argc argv).2
   ≤ length (safe_arguments argc argv).1)%nat.

(** The set-argv calls of a log, each with its count and array. *)
Definition set_argv_calls (evs : list event) : list (Z * argv_array) :=
  omap handed_argv evs.

(** ** Proof support *)

(** Unfolds one layer of the monad and of the primitive steps. *)
Ltac step :=
  unfold mbind, M_bind, mret, M_ret, throw, undefined, pybind11_fail, log,
    get_rt, get_hp, put_rt, put_hp in *; cbn [rt hp trace] in *.

Lemma drop_app_length' {A} (l k : list A) : drop (length l) (l ++ k) = k.
Proof. by rewrite drop_app_length. Qed.

Section Facts.
Context {P : Platform}.

(** *** Module registration *)

Lemma embedded_module_running name init w :
  py_initialized (rt w) = true ->
  embedded_module name init w =
  Throws (runtime_error
    "Can't add new modules after the interpreter has been initialized") w.
Proof.
  intros Hup. unfold embedded_module, Py_IsInitialized. step. by rewrite Hup.
Qed.

Lemma embedded_module_down name init w :
  py_initialized (rt w) = false ->
  embedded_module name init w =
  let w1 := World (rt w) (hp w) (trace w ++ [Call_PyImport_AppendInittab name init]) in
  if inittab_alloc_fails (PyImport_Inittab (rt w)) then
    Throws (runtime_error "Insufficient memory to add a new module") w1
  else
    Returns tt (World (set_inittab (PyImport_Inittab (rt w) ++ [(name, init)]) (rt w))
                      (hp w) (trace w1)).
Proof.
  intros Hdown. unfold embedded_module, Py_IsInitialized, PyImport_AppendInittab.
  step. rewrite Hdown. step.
  by destruct (inittab_alloc_fails _).
Qed.

Lemma PyImport_AppendInittab_run name init w :
  PyImport_AppendInittab name init w =
  let t := trace w ++ [Call_PyImport_AppendInittab name init] in
  if inittab_alloc_fails (PyImport_Inittab (rt w)) then
    Returns (-1) (World (rt w) (hp w) t)
  else
    Returns 0 (World (set_inittab (PyImport_Inittab (rt w) ++ [(name, init)]) (rt w))
                     (hp w) t).
Proof.
  unfold PyImport_AppendInittab. step.
  by destruct (inittab_alloc_fails _).
Qed.

(** C5. [embedded_module] (the registration of a module) throws "Can't add
    new modules after the interpreter has been initialized" exactly when
    the interpreter is initialized. When it is not, the constructor calls
    [PyImport_AppendInittab] once, throws "Insufficient memory to add a new
    module" exactly when that call returns [-1] and returns exactly when
    it returns [0]. A registration that returns has added the entry at
    the end of the table and changed nothing else: the interpreter is
    still down, no module object exists, the binding layer's memory is
    as before. *)
Theorem embedded_module_errors (name : string) (init : init_t) (w : world) :
  ((∃ w', embedded_module name init w =
          Throws (runtime_error
            "Can't add new modules after the interpreter has been initialized") w')
   ↔ py_initialized (rt w) = true)
  ∧ (py_initialized (rt w) = false →
     new_events w (embedded_module name init w)
       = [Call_PyImport_AppendInittab name init]
     ∧ ((∃ w', embedded_module name init w =
              Throws (runtime_error "Insufficient memory to add a new module") w')
        ↔ ∃ w1, PyImport_AppendInittab name init w = Returns (-1) w1)
     ∧ ((∃ w', embedded_module name init w = Returns tt w')
        ↔ ∃ w1, PyImport_AppendInittab name init w = Returns 0 w1))
  ∧ (∀ w', embedded_module name init w = Returns tt w' →
     rt w' = set_inittab (PyImport_Inittab (rt w) ++ [(name, init)]) (rt w)
     ∧ hp w' = hp w
     ∧ py_initialized (rt w') = false
     ∧ py_modules (rt w') = py_modules (rt w)).
Proof.
  rewrite PyImport_AppendInittab_run. cbn zeta.
  destruct (py_initialized (rt w)) eqn:Hup.
  - rewrite (embedded_module_running name init w Hup).
    repeat split; eauto; try discriminate.
  - rewrite (embedded_module_down name init w Hup). cbn zeta.
    destruct (inittab_alloc_fails (PyImport_Inittab (rt w))) eqn:Hfail.
    + split; [split; [intros [w' [=]] | discriminate] |].
      split; [intros _ | discriminate].
      unfold new_events; cbn. rewrite drop_app_length'.
      repeat split; eauto; intros [w' [=]].
    + split; [split; [intros [w' [=]] | discriminate] |].
      split.
      * intros _. unfold new_events; cbn. rewrite drop_app_length'.
        repeat split; eauto; intros [w' [=]].
      * intros w' [= <-]. cbn. by rewrite Hup.
Qed.

(** *** Shutdown *)

Lemma select_cell_run (b : gmap string pyobject) id pp w :
  select_cell b id pp w =
  match b !! id with
  | Some (PyCapsule p) =>
      Returns (Some p) (World (rt w) (hp w)
        (trace w ++ [Call_builtins_contains id; Call_capsule_pointer id]))
  | _ => Returns pp (World (rt w) (hp w) (trace w ++ [Call_builtins_contains id]))
  end.
Proof.
  unfold select_cell, contains, getitem, capsule_pointer. step.
  destruct (b !! id) as [[p|o]|] eqn:Hb; cbn; step; rewrite ?Hb; cbn; step;
    rewrite ?Hb; cbn; rewrite <- ?app_assoc; reflexivity.
Qed.

Lemma finalize_interpreter_run w :
  py_initialized (rt w) = true ->
  finalize_interpreter w =
  let h1 := finalize_teardown (rt w) (hp w) in
  match selected_cell w PYBIND11_INTERNALS_ID with
  | None => Returns tt (World (torn_down (rt w)) h1 (trace w ++ shutdown_prefix w PYBIND11_INTERNALS_ID))
  | Some cell =>
      let p := cells h1 !! cell in
      let live := match p with
                  | Some a => live_internals h1 ∖ {[a]}
                  | None => live_internals h1
                  end in
      Returns tt (World (torn_down (rt w))
                        (Heap (internals_pp h1) (delete cell (cells h1)) live)
                        (trace w ++ shutdown_prefix w PYBIND11_INTERNALS_ID
                                 ++ [Op_delete p; Op_store_null cell]))
  end.
Proof.
  intros Hup.
  unfold finalize_interpreter, PyEval_GetBuiltins, get_internals_pp. step.
  rewrite Hup. step. rewrite select_cell_run.
  unfold selected_cell, stashed_cell, shutdown_prefix, stashed_cell.
  destruct (py_builtins (rt w) !! PYBIND11_INTERNALS_ID) as [[c|o]|] eqn:Hb;
    cbn [rt hp trace]; unfold Py_Finalize; step; rewrite Hup; step;
    unfold release_cell, load_cell, delete_internals, store_null.
  - step. destruct (cells (finalize_teardown (rt w) (hp w)) !! c) eqn:Hc;
      step; cbn; rewrite <- ?app_assoc; reflexivity.
  - destruct (internals_pp (hp w)) as [c|]; step.
    + destruct (cells (finalize_teardown (rt w) (hp w)) !! c) eqn:Hc;
        step; cbn; rewrite <- ?app_assoc; reflexivity.
    + cbn; rewrite <- ?app_assoc; reflexivity.
  - destruct (internals_pp (hp w)) as [c|]; step.
    + destruct (cells (finalize_teardown (rt w) (hp w)) !! c) eqn:Hc;
        step; cbn; rewrite <- ?app_assoc; reflexivity.
    + cbn; rewrite <- ?app_assoc; reflexivity.
Qed.

(** In a log that has no [delete] before its first [Py_Finalize], every
    [delete] has a [Py_Finalize] before it. *)
Lemma delete_after_finalize (before after pre post : list event) p :
  (∀ q, Op_delete q ∉ before) →
  before ++ Call_Py_Finalize :: after = pre ++ Op_delete p :: post →
  Call_Py_Finalize ∈ pre.
Proof.
  revert pre. induction before as [|ev before IH]; intros pre Hno Heq.
  - destruct pre as [|ev' pre]; simplify_eq/=. apply elem_of_cons; by left.
  - destruct pre as [|ev' pre]; simplify_eq/=.
    + exfalso. apply (Hno p). apply elem_of_cons; by left.
    + apply elem_of_cons; right. apply IH; [|done].
      intros q Hq. apply (Hno q). apply elem_of_cons; by right.
Qed.

(** C1. [finalize_interpreter] on a running interpreter returns, and what
    it did, in order, is: [PyEval_GetBuiltins]; [get_internals_pp], a read
    that leaves the binding layer's memory as it was; the look-up of
    [PYBIND11_INTERNALS_ID] in the built-in namespace, whose capsule, when
    there is one, replaces the cell; [Py_Finalize]; and only then, when the
    selected cell is not null, the [delete] of what the cell holds after
    [Py_Finalize] and the store of [nullptr] into the cell. No [delete]
    comes before [Py_Finalize], and afterwards the interpreter is down,
    the selected cell holds [nullptr] and the object it held is no longer
    allocated. *)
Theorem finalize_interpreter_order (w : world) :
  py_initialized (rt w) = true →
  let id := PYBIND11_INTERNALS_ID in
  let h1 := finalize_teardown (rt w) (hp w) in
  ∃ w',
    finalize_interpreter w = Returns tt w'
    ∧ new_events w (finalize_interpreter w) =
        [Call_PyEval_GetBuiltins; Call_get_internals_pp; Call_builtins_contains id]
        ++ match stashed_cell (rt w) id with
           | Some _ => [Call_capsule_pointer id]
           | None => []
           end
        ++ [Call_Py_Finalize]
        ++ match selected_cell w id with
           | Some cell => [Op_delete (cells h1 !! cell); Op_store_null cell]
           | None => []
           end
    ∧ (∀ p, py_builtins (rt w) !! id = Some (PyCapsule p) →
            selected_cell w id = Some p)
    ∧ (stashed_cell (rt w) id = None → selected_cell w id = internals_pp (hp w))
    ∧ (∀ pre p post,
         new_events w (finalize_interpreter w) = pre ++ Op_delete p :: post →
         Call_Py_Finalize ∈ pre)
    ∧ py_initialized (rt w') = false
    ∧ internals_pp (hp w') = internals_pp h1
    ∧ match selected_cell w id with
      | Some cell =>
          cells (hp w') = delete cell (cells h1)
          ∧ cells (hp w') !! cell = None
          ∧ ∀ a, cells h1 !! cell = Some a →
                 live_internals (hp w') = live_internals h1 ∖ {[a]}
                 ∧ a ∉ live_internals (hp w')
      | None => hp w' = h1
      end.
Proof.
  intros Hup id h1.
  assert (Hev : ∀ w', finalize_interpreter w = Returns tt w' →
            new_events w (finalize_interpreter w)
            = drop (length (trace w)) (trace w')).
  { intros w' ->. reflexivity. }
  pose proof (finalize_interpreter_run w Hup) as Hrun. cbn zeta in Hrun.
  fold id h1 in Hrun.
  assert (Hsel1 : ∀ p, py_builtins (rt w) !! id = Some (PyCapsule p) →
                       selected_cell w id = Some p).
  { intros p Hp. unfold selected_cell, stashed_cell. by rewrite Hp. }
  assert (Hsel2 : stashed_cell (rt w) id = None →
                  selected_cell w id = internals_pp (hp w)).
  { intros Hn. unfold selected_cell. by rewrite Hn. }
  destruct (selected_cell w id) as [cell|] eqn:Hsel.
  - eexists. split; [exact Hrun |].
    rewrite (Hev _ Hrun). cbn [trace rt hp]. rewrite drop_app_length'.
    unfold shutdown_prefix. rewrite <- !app_assoc.
    split; [reflexivity |]. split; [exact Hsel1 |]. split; [exact Hsel2 |].
    split.
    { intros pre p post Heq. rewrite app_assoc in Heq.
      apply delete_after_finalize in Heq; [done |].
      intros q Hq. destruct (stashed_cell (rt w) id); cbn in Hq;
        repeat (apply elem_of_cons in Hq as [? | Hq]; [discriminate |]);
        by apply elem_of_nil in Hq. }
    split; [reflexivity |]. split; [reflexivity |].
    split; [reflexivity |]. split; [apply lookup_delete_eq |].
    intros a Ha. rewrite Ha. split; [reflexivity |].
    intros [_ Hn]%elem_of_difference. apply Hn. by apply elem_of_singleton.
  - eexists. split; [exact Hrun |].
    rewrite (Hev _ Hrun). cbn [trace rt hp]. rewrite drop_app_length'.
    unfold shutdown_prefix. rewrite app_nil_r, <- ?app_assoc.
    split; [reflexivity |]. split; [exact Hsel1 |]. split; [exact Hsel2 |].
    split.
    { intros pre p post Heq. rewrite app_assoc in Heq.
      apply delete_after_finalize in Heq; [done |].
      intros q Hq. destruct (stashed_cell (rt w) id); cbn in Hq;
        repeat (apply elem_of_cons in Hq as [? | Hq]; [discriminate |]);
        by apply elem_of_nil in Hq. }
    repeat split.
Qed.

(** C10. When the cell [finalize_interpreter] has selected is null, the
    block that frees and nulls is skipped: the run returns, it logs the
    four calls up to [Py_Finalize] and neither a [delete] nor a store, and
    the binding layer's memory is what [Py_Finalize] left. *)
Theorem finalize_interpreter_null_cell (w : world) :
  py_initialized (rt w) = true →
  selected_cell w PYBIND11_INTERNALS_ID = None →
  ∃ w',
    finalize_interpreter w = Returns tt w'
    ∧ new_events w (finalize_interpreter w) =
        [Call_PyEval_GetBuiltins; Call_get_internals_pp;
         Call_builtins_contains PYBIND11_INTERNALS_ID; Call_Py_Finalize]
    ∧ (∀ ev, ev ∈ new_events w (finalize_interpreter w) →
             (∀ p, ev ≠ Op_delete p) ∧ (∀ cell, ev ≠ Op_store_null cell))
    ∧ hp w' = finalize_teardown (rt w) (hp w)
    ∧ py_initialized (rt w') = false
    ∧ (∀ w0, release_cell None w0 = Returns tt w0).
Proof.
  intros Hup Hsel.
  pose proof (finalize_interpreter_run w Hup) as Hrun. cbn zeta in Hrun.
  rewrite Hsel in Hrun.
  assert (Hst : stashed_cell (rt w) PYBIND11_INTERNALS_ID = None).
  { unfold selected_cell in Hsel.
    by destruct (stashed_cell (rt w) PYBIND11_INTERNALS_ID). }
  eexists. split; [exact Hrun |]. rewrite Hrun.
  unfold new_events, shutdown_prefix; cbn [final_world trace rt hp].
  rewrite Hst, drop_app_length'. cbn [app].
  split; [reflexivity |]. split; [| by repeat split].
  intros ev Hev.
  repeat (apply elem_of_cons in Hev as [-> | Hev]; [by split |]).
  by apply elem_of_nil in Hev.
Qed.

(** *** The scope guard *)

(** C9. The guard the move constructor makes is owning whatever the flag
    of its source was; the source is left not owning. So a guard moved
    from a guard that had already been moved from owns too, and its
    destructor is a call of [finalize_interpreter]. *)
Theorem scoped_interpreter_move_owns (other : scoped_interpreter) :
  is_valid (scoped_interpreter_move other).1 = true
  ∧ is_valid (scoped_interpreter_move other).2 = false
  ∧ scoped_interpreter_dtor (scoped_interpreter_move other).1
    = finalize_interpreter
  ∧ is_valid (scoped_interpreter_move (scoped_interpreter_move other).2).1 = true
  ∧ scoped_interpreter_dtor
      (scoped_interpreter_move (scoped_interpreter_move other).2).1
    = finalize_interpreter.
Proof. by repeat split. Qed.

Lemma scoped_interpreter_dtor_moved_from (g : scoped_interpreter) (w : world) :
  is_valid g = false → scoped_interpreter_dtor g w = Returns tt w.
Proof. intros Hg. unfold scoped_interpreter_dtor. by rewrite Hg. Qed.

(** *** Startup *)

Lemma Py_InitializeEx_run initsigs w :
  py_initialized (rt w) = false →
  Py_InitializeEx initsigs w =
  let w1 := World (rt w) (hp w) (trace w ++ [Call_Py_InitializeEx initsigs]) in
  if init_fails (rt w) then Terminates w1
  else Returns tt (World (Runtime true (PyImport_Inittab (rt w)) None
                                  default_sys_path fresh_builtins [] None)
                         (hp w) (trace w1)).
Proof.
  intros Hdown. unfold Py_InitializeEx. step. rewrite Hdown.
  by destruct (init_fails (rt w)).
Qed.

(** The set-argv calls and the pop leave the interpreter up or down as
    they found it, however they end. *)
Lemma sys_set_argv_initialized argc argv updatepath w w' :
  final_world (sys_set_argv argc argv updatepath w) = Some w' →
  py_initialized (rt w') = py_initialized (rt w).
Proof.
  unfold sys_set_argv. step.
  destruct argv as [l|l]; case_bool_decide; step; intros [= <-]; cbn;
    by destruct (updatepath =? 0).
Qed.

Lemma sys_path_pop_initialized w w' :
  final_world (sys_path_pop w) = Some w' →
  py_initialized (rt w') = py_initialized (rt w).
Proof.
  unfold sys_path_pop. step. destruct (sys_path (rt w)); intros [= <-]; done.
Qed.

Lemma hand_over_argv_initialized argc argv add w w' :
  final_world (hand_over_argv argc argv add w) = Some w' →
  py_initialized (rt w') = py_initialized (rt w).
Proof.
  unfold hand_over_argv, PySys_SetArgv, PySys_SetArgvEx.
  destruct lacks_PySys_SetArgvEx; unfold mbind at 1, M_bind at 1; unfold log;
    [| unfold mbind, M_bind;
       match goal with |- context [sys_set_argv ?a ?b ?c ?x] =>
         pose proof (sys_set_argv_initialized a b c x) as Hs;
         destruct (sys_set_argv a b c x); cbn in *; intros [= <-];
         by rewrite (Hs _ eq_refl) end].
  unfold mbind, M_bind.
  match goal with |- context [sys_set_argv ?a ?b ?c ?x] =>
    pose proof (sys_set_argv_initialized a b c x) as Hs;
    destruct (sys_set_argv a b c x) as [[] w1|e w1|w1|]; cbn in *;
    try (intros [= <-]; by rewrite (Hs _ eq_refl)); try done end.
  specialize (Hs _ eq_refl). cbn in Hs. rewrite <- Hs.
  destruct add; cbn.
  - by intros [= <-].
  - apply sys_path_pop_initialized.
Qed.

Lemma set_interpreter_argv_initialized argc argv add w w' :
  final_world (set_interpreter_argv argc argv add w) = Some w' →
  py_initialized (rt w') = py_initialized (rt w).
Proof.
  unfold set_interpreter_argv.
  destruct (safe_arguments argc argv) as [safe_argv n].
  destruct (3 <=? PY_MAJOR_VERSION).
  - destruct (widen_loop _ _ _ _); [apply hand_over_argv_initialized | |].
    + by intros [= <-].
    + done.
  - apply hand_over_argv_initialized.
Qed.

Lemma initialize_interpreter_returns isg argc argv add w w' :
  initialize_interpreter isg argc argv add w = Returns tt w' →
  py_initialized (rt w) = false ∧ py_initialized (rt w') = true.
Proof.
  unfold initialize_interpreter, Py_IsInitialized. step.
  destruct (py_initialized (rt w)) eqn:Hup; [done |].
  rewrite (Py_InitializeEx_run _ w Hup). cbn zeta.
  destruct (init_fails (rt w)); [done |].
  intros Hrun. split; [done |].
  match type of Hrun with set_interpreter_argv ?a ?b ?c ?x = _ =>
    pose proof (set_interpreter_argv_initialized a b c x w') as Hs end.
  rewrite Hrun in Hs. by rewrite (Hs eq_refl).
Qed.

Lemma initialize_interpreter_running isg argc argv add w :
  py_initialized (rt w) = true →
  initialize_interpreter isg argc argv add w =
  Throws (runtime_error "The interpreter is already running") w.
Proof.
  intros Hup. unfold initialize_interpreter, Py_IsInitialized. step.
  by rewrite Hup.
Qed.

(** C2. A call of [initialize_interpreter] on an initialized interpreter,
    and so every call that follows one that returned, throws "The
    interpreter is already running". It leaves the process as it found
    it: [Py_InitializeEx] is not called, and the interpreter is still
    initialized for the next attempt. *)
Theorem initialize_interpreter_twice (init_signal_handlers : bool) (argc : Z)
  (argv : option (list cstring)) (add_current_dir_to_path : bool) (w : world) :
  (py_initialized (rt w) = true
   ∨ ∃ isg0 argc0 argv0 add0 w0,
       initialize_interpreter isg0 argc0 argv0 add0 w0 = Returns tt w) →
  initialize_interpreter init_signal_handlers argc argv add_current_dir_to_path w
  = Throws (runtime_error "The interpreter is already running") w
  ∧ new_events w (initialize_interpreter init_signal_handlers argc argv
                    add_current_dir_to_path w) = []
  ∧ py_initialized (rt w) = true.
Proof.
  intros Hup.
  assert (Hup' : py_initialized (rt w) = true).
  { destruct Hup as [Hup | (isg0 & argc0 & argv0 & add0 & w0 & Hrun)]; [done |].
    by apply initialize_interpreter_returns in Hrun as [_ Hrun]. }
  rewrite (initialize_interpreter_running _ _ _ _ w Hup').
  unfold new_events; cbn. by rewrite drop_all.
Qed.

(** C6. After a [scoped_interpreter] has been constructed and a second
    guard move-constructed from it, destroying the second guard and then
    the first calls [Py_Finalize] once: the second guard's destructor
    runs [finalize_interpreter], the destructor of the moved-from guard
    returns without touching the process, in whatever state it is run,
    and afterwards the interpreter is not initialized. *)
Theorem scoped_interpreter_moved_once (init_signal_handlers : bool) (argc : Z)
  (argv : option (list cstring)) (add_current_dir_to_path : bool)
  (w w1 : world) (g1 : scoped_interpreter) :
  scoped_interpreter_ctor init_signal_handlers argc argv
    add_current_dir_to_path w = Returns g1 w1 →
  ∃ w2,
    scoped_interpreter_dtor (scoped_interpreter_move g1).1 w1 = Returns tt w2
    ∧ scoped_interpreter_dtor (scoped_interpreter_move g1).1 w1
      = finalize_interpreter w1
    ∧ scoped_interpreter_dtor (scoped_interpreter_move g1).2 w2 = Returns tt w2
    ∧ length (List.filter is_finalize (drop (length (trace w1)) (trace w2))) = 1%nat
    ∧ py_initialized (rt w1) = true
    ∧ py_initialized (rt w2) = false
    ∧ (∀ w0, scoped_interpreter_dtor (scoped_interpreter_move g1).2 w0
             = Returns tt w0).
Proof.
  unfold scoped_interpreter_ctor. unfold mbind, M_bind, mret, M_ret.
  destruct (initialize_interpreter _ _ _ _ w) as [[] w1'| | |] eqn:Hinit;
    try done.
  intros [= <- <-].
  apply initialize_interpreter_returns in Hinit as [_ Hup].
  pose proof (finalize_interpreter_run w1' Hup) as Hrun. cbn zeta in Hrun.
  cbn [scoped_interpreter_move fst snd scoped_interpreter_dtor is_valid].
  unfold shutdown_prefix in Hrun.
  destruct (selected_cell w1' PYBIND11_INTERNALS_ID) as [cell|];
    (eexists; split; [exact Hrun |]);
    (split; [reflexivity |]); (split; [reflexivity |]);
    (split; [| by repeat split]);
    cbn [trace]; rewrite drop_app_length';
    by destruct (stashed_cell (rt w1') PYBIND11_INTERNALS_ID).
Qed.

(** *** Program arguments *)

Lemma sys_set_argv_run argc argv updatepath w :
  sys_set_argv argc argv updatepath w = Undefined
  ∨ ∃ r, sys_set_argv argc argv updatepath w
         = Returns tt (World r (hp w) (trace w)).
Proof.
  unfold sys_set_argv. step.
  destruct argv as [l|l]; case_bool_decide; eauto.
Qed.

Lemma sys_path_pop_run w :
  let t := trace w ++ [Call_sys_path_pop] in
  (∃ e, sys_path_pop w = Throws e (World (rt w) (hp w) t))
  ∨ (∃ r, sys_path_pop w = Returns tt (World r (hp w) t)).
Proof.
  unfold sys_path_pop. step. destruct (sys_path (rt w)); eauto.
Qed.

(** What [hand_over_argv] can log: one set-argv call with the count and
    the array it was given, followed on the old versions by a pop. *)
Lemma hand_over_argv_events argc argv add w :
  let evs := new_events w (hand_over_argv argc argv add w) in
  evs = []
  ∨ (lacks_PySys_SetArgvEx = true ∧ evs = [Call_PySys_SetArgv argc argv])
  ∨ (lacks_PySys_SetArgvEx = true ∧ add = false
     ∧ evs = [Call_PySys_SetArgv argc argv; Call_sys_path_pop])
  ∨ (lacks_PySys_SetArgvEx = false
     ∧ evs = [Call_PySys_SetArgvEx argc argv (if add then 1 else 0)]).
Proof.
  cbn zeta. unfold hand_over_argv, PySys_SetArgv, PySys_SetArgvEx.
  destruct lacks_PySys_SetArgvEx; step;
    match goal with |- context [sys_set_argv ?a ?b ?c ?x] =>
      destruct (sys_set_argv_run a b c x) as [-> | [r ->]] end;
    try (by left); cbn [rt hp trace].
  - destruct add; cbn [negb].
    + right; left. split; [done |]. unfold new_events; cbn [final_world trace].
      by rewrite drop_app_length'.
    + right; right; left. split; [done |]. split; [done |].
      match goal with |- context [sys_path_pop ?x] =>
        destruct (sys_path_pop_run x) as [[e ->] | [r' ->]] end;
        unfold new_events; cbn [final_world trace];
        by rewrite <- app_assoc, drop_app_length'.
  - right; right; right. split; [done |].
    unfold new_events; cbn [final_world trace].
    by rewrite drop_app_length'.
Qed.

(** Every set-argv call [hand_over_argv] makes carries the count and the
    array it was given. *)
Lemma hand_over_argv_handed argc argv add w ev n a :
  ev ∈ new_events w (hand_over_argv argc argv add w) →
  handed_argv ev = Some (n, a) → n = argc ∧ a = argv.
Proof.
  intros Hev Hh.
  destruct (hand_over_argv_events argc argv add w)
    as [Hnil | [[_ He] | [(_ & _ & He) | [_ He]]]];
    [rewrite Hnil in Hev | rewrite He in Hev ..];
    repeat (apply elem_of_cons in Hev as [-> | Hev];
            [by (cbn in Hh; simplify_eq) |]);
    by apply elem_of_nil in Hev.
Qed.

(** The loop stops at the first argument that does not convert. *)
Lemma widen_loop_gives_up n ii safe_argv done k arg :
  (ii ≤ k < ii + n)%nat →
  safe_argv !! k = Some arg →
  widen_chars arg = None →
  widen_loop n ii safe_argv done = GaveUp.
Proof.
  revert ii done. induction n as [|n IH]; intros ii done Hk Harg Hbad; [lia |].
  cbn [widen_loop].
  destruct (safe_argv !! ii) as [a|] eqn:Ha.
  - destruct (widen_chars a) as [wa|] eqn:Hwa; [| done].
    apply IH; [| done | done].
    destruct (decide (ii = k)) as [-> | Hne]; [congruence | lia].
  - apply lookup_ge_None in Ha. apply lookup_lt_Some in Harg. lia.
Qed.

(** The special case for an empty or null [argv]. *)
Lemma safe_arguments_empty argc argv :
  argv = None ∨ argc ≤ 0 → safe_arguments argc argv = ([[]], 1).
Proof.
  unfold safe_arguments. intros [-> | Hle]; [done |].
  destruct argv; [| done].
  by destruct (Z.leb_spec argc 0); [| lia].
Qed.

(** C3. For a null [argv] or an [argc] that is not positive,
    [set_interpreter_argv] works on the one-element array holding the empty
    string, with count 1. Every set-argv call of the run is handed count 1
    and an array of length 1: on Python 2 the array of the empty string
    itself, on Python 3 the array of what [widen_chars] made of it, which
    is the empty wide string on a platform whose converter maps the empty
    string to the empty string. Unless that conversion fails, the run is
    the hand-over of this array, so no call is handed a null or an empty
    array. *)
Theorem set_interpreter_argv_empty (argc : Z) (argv : option (list cstring))
  (add_current_dir_to_path : bool) (w : world) :
  argv = None ∨ argc ≤ 0 →
  safe_arguments argc argv = ([[]], 1)
  ∧ (∀ ev n a,
       ev ∈ new_events w (set_interpreter_argv argc argv add_current_dir_to_path w) →
       handed_argv ev = Some (n, a) →
       n = 1
       ∧ match a with
         | narrow_argv l => (3 <=? PY_MAJOR_VERSION) = false ∧ l = [[]]
         | wide_argv l =>
             (3 <=? PY_MAJOR_VERSION) = true
             ∧ length l = 1%nat
             ∧ (∃ e, widen_chars [] = Some e ∧ l = [e])
             ∧ ((∀ e, widen_chars [] = Some e → e = []) → l = [[]])
         end)
  ∧ ((3 <=? PY_MAJOR_VERSION) = false →
     set_interpreter_argv argc argv add_current_dir_to_path w
     = hand_over_argv 1 (narrow_argv [[]]) add_current_dir_to_path w)
  ∧ (∀ e, (3 <=? PY_MAJOR_VERSION) = true → widen_chars [] = Some e →
     set_interpreter_argv argc argv add_current_dir_to_path w
     = hand_over_argv 1 (wide_argv [e]) add_current_dir_to_path w).
Proof.
  intros Hempty.
  pose proof (safe_arguments_empty argc argv Hempty) as Hsafe.
  split; [exact Hsafe |].
  unfold set_interpreter_argv. rewrite Hsafe.
  destruct (3 <=? PY_MAJOR_VERSION).
  - change (Z.to_nat 1) with 1%nat. cbn [widen_loop lookup list_lookup].
    destruct (widen_chars []) as [e|] eqn:He; cbn [app].
    + split; [| split; [done | by intros e' _ [= <-]]].
      intros ev n a Hev Hh.
      destruct (hand_over_argv_handed _ _ _ _ _ _ _ Hev Hh) as [-> ->].
      repeat split; eauto. intros Hwiden. by rewrite (Hwiden e eq_refl).
    + split; [| done].
      intros ev n a Hev. unfold new_events in Hev; cbn in Hev.
      rewrite drop_all in Hev. by apply elem_of_nil in Hev.
  - split; [| done].
    intros ev n a Hev Hh.
    destruct (hand_over_argv_handed _ _ _ _ _ _ _ Hev Hh) as [-> ->].
    by repeat split.
Qed.

(** C4. On Python 3, when one of the arguments does not widen
    ([widen_chars] returns null), [set_interpreter_argv] returns without
    an exception and without having touched the process: no set-argv
    call is made and [sys.argv] stays unset. [initialize_interpreter]
    then returns too, with the interpreter initialized and
    [Py_InitializeEx] its only call. *)
Theorem initialize_interpreter_bad_argument (init_signal_handlers : bool)
  (argc : Z) (argv : option (list cstring)) (add_current_dir_to_path : bool)
  (w : world) (ii : nat) (arg : cstring) :
  3 ≤ PY_MAJOR_VERSION →
  py_initialized (rt w) = false →
  init_fails (rt w) = false →
  (ii < Z.to_nat (safe_arguments argc argv).2)%nat →
  (safe_arguments argc argv).1 !! ii = Some arg →
  widen_chars arg = None →
  let initsigs := if init_signal_handlers then 1 else 0 in
  let w1 := World (Runtime true (PyImport_Inittab (rt w)) None default_sys_path
                           fresh_builtins [] None)
                  (hp w) (trace w ++ [Call_Py_InitializeEx initsigs]) in
  (∀ w0, set_interpreter_argv argc argv add_current_dir_to_path w0 = Returns tt w0)
  ∧ initialize_interpreter init_signal_handlers argc argv
      add_current_dir_to_path w = Returns tt w1
  ∧ py_initialized (rt w1) = true
  ∧ sys_argv (rt w1) = None
  ∧ new_events w (initialize_interpreter init_signal_handlers argc argv
                    add_current_dir_to_path w) = [Call_Py_InitializeEx initsigs]
  ∧ (∀ ev, ev ∈ new_events w (initialize_interpreter init_signal_handlers argc
                                argv add_current_dir_to_path w) →
           handed_argv ev = None).
Proof.
  intros Hpy3 Hdown Hinit Hii Harg Hbad initsigs w1.
  assert (Hsilent : ∀ w0,
            set_interpreter_argv argc argv add_current_dir_to_path w0
            = Returns tt w0).
  { intros w0. unfold set_interpreter_argv.
    destruct (safe_arguments argc argv) as [safe_argv n]. cbn [fst snd] in *.
    destruct (Z.leb_spec 3 PY_MAJOR_VERSION); [| lia].
    rewrite (widen_loop_gives_up _ 0 safe_argv [] ii arg);
      [done | lia | done | done]. }
  assert (Hrun : initialize_interpreter init_signal_handlers argc argv
                   add_current_dir_to_path w = Returns tt w1).
  { unfold initialize_interpreter, Py_IsInitialized. step. rewrite Hdown.
    rewrite (Py_InitializeEx_run _ w Hdown). cbn zeta. rewrite Hinit.
    apply Hsilent. }
  split; [exact Hsilent |]. split; [exact Hrun |].
  rewrite Hrun. unfold new_events; cbn [final_world trace w1].
  rewrite drop_app_length'.
  repeat split. intros ev Hev.
  apply elem_of_cons in Hev as [-> | Hev]; [done |].
  by apply elem_of_nil in Hev.
Qed.

(** *** Module initialisers *)

Lemma pybind11_init_wrapper_run name body w m w1 :
  module_ctor name w = Returns m w1 →
  pybind11_init_wrapper name body w
  = try_catch (body m;; mret (Some m)) init_wrapper_handler w1.
Proof.
  intros Hm. unfold pybind11_init_wrapper. unfold mbind at 1, M_bind at 1.
  by rewrite Hm.
Qed.

(** C7 as the code has it. An exception of a type derived from
    [std::exception] ([error_already_set] included) that the body of an
    embedded module throws is caught by the wrapper: the wrapper sets an
    [ImportError] with the exception's message and returns null. *)
Theorem pybind11_init_wrapper_converts (name : string)
  (pybind11_init : pymodule → M unit) (w w1 w2 : world) (m : pymodule)
  (e : exception) (msg : string) :
  module_ctor name w = Returns m w1 →
  pybind11_init m w1 = Throws e w2 →
  what e = Some msg →
  pybind11_init_wrapper name pybind11_init w
  = Returns None
      (World (set_error (Some (PyExc_ImportError, msg)) (rt w2)) (hp w2)
             (trace w2 ++ [Call_PyErr_SetString PyExc_ImportError msg])).
Proof.
  intros Hm Hbody Hwhat.
  rewrite (pybind11_init_wrapper_run _ _ _ _ _ Hm).
  unfold try_catch. unfold mbind at 1, M_bind at 1. rewrite Hbody.
  unfold init_wrapper_handler, PyErr_SetString.
  destruct e; cbn in Hwhat; simplify_eq; by step.
Qed.

(** A thrown value of any other type passes through the wrapper. *)
Lemma pybind11_init_wrapper_propagates name pybind11_init w w1 w2 m e :
  module_ctor name w = Returns m w1 →
  pybind11_init m w1 = Throws e w2 →
  what e = None →
  pybind11_init_wrapper name pybind11_init w = Throws e w2.
Proof.
  intros Hm Hbody Hwhat.
  rewrite (pybind11_init_wrapper_run _ _ _ _ _ Hm).
  unfold try_catch. unfold mbind at 1, M_bind at 1. rewrite Hbody.
  by destruct e.
Qed.

(** A body that returns makes the wrapper return the module. *)
Lemma pybind11_init_wrapper_returns name pybind11_init w w1 w2 m :
  module_ctor name w = Returns m w1 →
  pybind11_init m w1 = Returns tt w2 →
  pybind11_init_wrapper name pybind11_init w = Returns (Some m) w2.
Proof.
  intros Hm Hbody.
  rewrite (pybind11_init_wrapper_run _ _ _ _ _ Hm).
  unfold try_catch. unfold mbind at 1, M_bind at 1. by rewrite Hbody.
Qed.

(** *** The two ways of handing the arguments over *)

Lemma hand_over_argv_combined argc argv add :
  lacks_PySys_SetArgvEx = false →
  hand_over_argv argc argv add
  = PySys_SetArgvEx argc argv (if add then 1 else 0).
Proof. intros Hl. unfold hand_over_argv. by rewrite Hl. Qed.

Lemma hand_over_argv_plain argc argv add :
  lacks_PySys_SetArgvEx = true →
  hand_over_argv argc argv add
  = (PySys_SetArgv argc argv;;
     if negb add then sys_path_pop else mret tt).
Proof. intros Hl. unfold hand_over_argv. by rewrite Hl. Qed.

(** On a version without [PySys_SetArgvEx], asking for the current
    directory not to be added leaves the entry that [PySys_SetArgv] has
    put in front of [sys.path] where it is and removes the last entry. *)
Lemma hand_over_argv_plain_path argc args w :
  lacks_PySys_SetArgvEx = true →
  (Z.to_nat argc ≤ length args)%nat →
  ∃ w', hand_over_argv argc (wide_argv args) false w = Returns tt w'
        ∧ sys_path (rt w')
          = removelast (script_dir (wide_argv (take (Z.to_nat argc) args))
                          :: sys_path (rt w)).
Proof.
  intros Hl Hlen. rewrite (hand_over_argv_plain _ _ _ Hl).
  unfold PySys_SetArgv, sys_set_argv, sys_path_pop. step.
  rewrite bool_decide_true by done. step. cbn [negb]. step.
  eexists. split; reflexivity.
Qed.

(** ** Further properties of the header *)

(** *** The hand-over in full *)

Lemma sys_set_argv_returns argc argv updatepath w :
  (Z.to_nat argc ≤ argv_length argv)%nat →
  sys_set_argv argc argv updatepath w =
  let taken := argv_take (Z.to_nat argc) argv in
  let r := set_sys_argv (Some taken) (rt w) in
  Returns tt (World (if updatepath =? 0 then r
                     else set_sys_path (script_dir taken :: sys_path (rt w)) r)
                    (hp w) (trace w)).
Proof.
  intros Hlen. unfold sys_set_argv. step.
  destruct argv as [l|l]; cbn [argv_length argv_take] in *;
    by rewrite bool_decide_true by done.
Qed.

Lemma sys_set_argv_short argc argv updatepath w :
  (argv_length argv < Z.to_nat argc)%nat →
  sys_set_argv argc argv updatepath w = Undefined.
Proof.
  intros Hlen. unfold sys_set_argv. step.
  destruct argv as [l|l]; cbn [argv_length] in *;
    by rewrite bool_decide_false by lia.
Qed.

Lemma hand_over_argv_returns argc argv add w :
  (Z.to_nat argc ≤ argv_length argv)%nat →
  hand_over_argv argc argv add w =
  let taken := argv_take (Z.to_nat argc) argv in
  Returns tt
    (World (set_sys_path
              (hand_over_path lacks_PySys_SetArgvEx add (script_dir taken)
                 (sys_path (rt w)))
              (set_sys_argv (Some taken) (rt w)))
           (hp w)
           (trace w ++ hand_over_events lacks_PySys_SetArgvEx add argc argv)).
Proof.
  intros Hlen.
  unfold hand_over_argv, PySys_SetArgv, PySys_SetArgvEx, hand_over_events,
    hand_over_path.
  destruct lacks_PySys_SetArgvEx; step;
    rewrite (sys_set_argv_returns _ _ _ _ Hlen); cbn zeta; cbn [rt hp trace].
  - destruct add; cbn [negb]; [reflexivity |].
    unfold sys_path_pop. step. cbn [sys_path set_sys_path set_sys_argv].
    by rewrite <- app_assoc.
  - by destruct add.
Qed.

Lemma hand_over_argv_short argc argv add w :
  (argv_length argv < Z.to_nat argc)%nat →
  hand_over_argv argc argv add w = Undefined.
Proof.
  intros Hlen. unfold hand_over_argv, PySys_SetArgv, PySys_SetArgvEx.
  destruct lacks_PySys_SetArgvEx; step;
    by rewrite (sys_set_argv_short _ _ _ _ Hlen).
Qed.

(** *** The loop in full *)

Lemma widen_loop_widened n ii safe_argv acc out :
  widen_loop n ii safe_argv acc = Widened out
  ↔ (n ≤ length (drop ii safe_argv))%nat
    ∧ ∃ ws, out = acc ++ ws
            ∧ Forall2 (λ arg wide, widen_chars arg = Some wide)
                (take n (drop ii safe_argv)) ws.
Proof.
  revert ii acc. induction n as [|n IH]; intros ii acc; cbn [widen_loop].
  - split.
    + intros [= <-]. split; [lia |]. exists []. by rewrite app_nil_r.
    + intros [_ (ws & -> & Hws)]. cbn in Hws.
      apply Forall2_nil_inv_l in Hws as ->. by rewrite app_nil_r.
  - destruct (safe_argv !! ii) as [arg|] eqn:Harg.
    + rewrite (drop_S _ _ _ Harg). cbn [take length].
      destruct (widen_chars arg) as [wide|] eqn:Hwide.
      * rewrite IH. split.
        -- intros [Hlen (ws & -> & Hws)]. split; [lia |].
           exists (wide :: ws). rewrite <- app_assoc. split; [done |].
           by constructor.
        -- intros [Hlen (ws & -> & Hws)]. split; [lia |].
           apply Forall2_cons_inv_l in Hws as (wide' & ws' & Hw & Hws & ->).
           simplify_eq. exists ws'. by rewrite <- app_assoc.
      * split; [done |]. intros [_ (ws & _ & Hws)].
        apply Forall2_cons_inv_l in Hws as (wide' & ws' & Hw & _). congruence.
    + apply lookup_ge_None in Harg. rewrite drop_ge by done.
      split; [done |]. intros [Hlen _]. cbn in Hlen. lia.
Qed.

Lemma widen_loop_past_the_end n ii safe_argv acc :
  widen_loop n ii safe_argv acc = PastTheEnd →
  (length (drop ii safe_argv) < n)%nat.
Proof.
  revert ii acc. induction n as [|n IH]; intros ii acc; cbn [widen_loop];
    [done |].
  destruct (safe_argv !! ii) as [arg|] eqn:Harg.
  - rewrite (drop_S _ _ _ Harg). cbn [length].
    destruct (widen_chars arg); [| done].
    intros Hloop. apply IH in Hloop. lia.
  - intros _. apply lookup_ge_None in Harg. rewrite drop_ge by done. cbn. lia.
Qed.

Lemma widen_loop_gave_up n ii safe_argv acc :
  widen_loop n ii safe_argv acc = GaveUp →
  ∃ k arg, (ii ≤ k < ii + n)%nat ∧ safe_argv !! k = Some arg
           ∧ widen_chars arg = None
           ∧ ∀ j arg', (ii ≤ j < k)%nat → safe_argv !! j = Some arg' →
                       widen_chars arg' ≠ None.
Proof.
  revert ii acc. induction n as [|n IH]; intros ii acc; cbn [widen_loop];
    [done |].
  destruct (safe_argv !! ii) as [arg|] eqn:Harg; [| done].
  destruct (widen_chars arg) as [wide|] eqn:Hwide.
  - intros Hloop. apply IH in Hloop as (k & arg' & Hk & Hk' & Hbad & Hfirst).
    exists k, arg'. split; [lia |]. split; [done |]. split; [done |].
    intros j a Hj Ha. destruct (decide (j = ii)) as [-> | Hne].
    + simplify_eq. by rewrite Hwide.
    + apply (Hfirst j a); [lia | done].
  - intros _. exists ii, arg. split; [lia |]. split; [done |]. split; [done |].
    intros j a Hj. lia.
Qed.

Lemma set_argv_calls_hand_over lacks add argc argv :
  set_argv_calls (hand_over_events lacks add argc argv) = [(argc, argv)].
Proof. by destruct lacks, add. Qed.

Lemma Forall2_widen_length (args : list cstring) (ws : list wstring) :
  Forall2 (λ arg wide, widen_chars arg = Some wide) args ws →
  length ws = length args.
Proof. intros Hws. symmetry. by eapply Forall2_length. Qed.

(** *** [set_interpreter_argv], case by case *)

(** The three ways the function can end on Python 3, and the one on
    Python 2, with the world each leaves. *)
Lemma set_interpreter_argv_run argc argv add w :
  let safe_argv := (safe_arguments argc argv).1 in
  let n := (safe_arguments argc argv).2 in
  let handed a :=
    Returns tt
      (World (set_sys_path
                (hand_over_path lacks_PySys_SetArgvEx add
                   (script_dir (argv_take (Z.to_nat n) a)) (sys_path (rt w)))
                (set_sys_argv (Some (argv_take (Z.to_nat n) a)) (rt w)))
             (hp w)
             (trace w ++ hand_over_events lacks_PySys_SetArgvEx add n a)) in
  if 3 <=? PY_MAJOR_VERSION then
    (∃ ws, Forall2 (λ arg wide, widen_chars arg = Some wide)
             (take (Z.to_nat n) safe_argv) ws
           ∧ (Z.to_nat n ≤ length safe_argv)%nat
           ∧ set_interpreter_argv argc argv add w = handed (wide_argv ws))
    ∨ ((∃ k arg, (k < Z.to_nat n)%nat ∧ safe_argv !! k = Some arg
                 ∧ widen_chars arg = None)
       ∧ set_interpreter_argv argc argv add w = Returns tt w)
    ∨ ((length safe_argv < Z.to_nat n)%nat
       ∧ set_interpreter_argv argc argv add w = Undefined)
  else
    ((Z.to_nat n ≤ length safe_argv)%nat
     ∧ set_interpreter_argv argc argv add w = handed (narrow_argv safe_argv))
    ∨ ((length safe_argv < Z.to_nat n)%nat
       ∧ set_interpreter_argv argc argv add w = Undefined).
Proof.
  cbn zeta. unfold set_interpreter_argv.
  destruct (safe_arguments argc argv) as [safe_argv n]. cbn [fst snd].
  destruct (3 <=? PY_MAJOR_VERSION).
  - destruct (widen_loop (Z.to_nat n) 0 safe_argv []) as [out| |] eqn:Hloop.
    + left. apply widen_loop_widened in Hloop as [Hlen (ws & -> & Hws)].
      rewrite drop_0 in Hlen, Hws. cbn [app].
      exists ws. split; [done |]. split; [done |].
      apply hand_over_argv_returns. cbn [argv_length].
      rewrite (Forall2_widen_length _ _ Hws), length_take. lia.
    + right; left. split; [| done].
      apply widen_loop_gave_up in Hloop as (k & arg & Hk & Harg & Hbad & _).
      exists k, arg. split; [lia | done].
    + right; right. split; [| done].
      apply widen_loop_past_the_end in Hloop. by rewrite drop_0 in Hloop.
  - destruct (decide (Z.to_nat n ≤ length safe_argv)%nat) as [Hlen | Hlen].
    + left. split; [done |]. by apply hand_over_argv_returns.
    + right. split; [lia |]. apply hand_over_argv_short. cbn. lia.
Qed.

Lemma new_events_returns {A} (a : A) w r h evs :
  new_events w (Returns a (World r h (trace w ++ evs))) = evs.
Proof. unfold new_events; cbn [final_world trace]. apply drop_app_length'. Qed.

Lemma safe_arguments_given argc args :
  0 < argc → safe_arguments argc (Some args) = (args, argc).
Proof.
  intros Hpos. unfold safe_arguments.
  by destruct (Z.leb_spec argc 0); [lia |].
Qed.

(** On Python 3, when the first [n] arguments widen to [ws], the run is the
    hand-over of [ws]. *)
Lemma set_interpreter_argv_wide argc argv add w ws :
  (3 <=? PY_MAJOR_VERSION) = true →
  let safe_argv := (safe_arguments argc argv).1 in
  let n := (safe_arguments argc argv).2 in
  (Z.to_nat n ≤ length safe_argv)%nat →
  Forall2 (λ arg wide, widen_chars arg = Some wide)
    (take (Z.to_nat n) safe_argv) ws →
  set_interpreter_argv argc argv add w =
  Returns tt
    (World (set_sys_path
              (hand_over_path lacks_PySys_SetArgvEx add
                 (script_dir (wide_argv ws)) (sys_path (rt w)))
              (set_sys_argv (Some (wide_argv ws)) (rt w)))
           (hp w)
           (trace w ++ hand_over_events lacks_PySys_SetArgvEx add n (wide_argv ws))).
Proof.
  intros Hpy3. cbn zeta. unfold set_interpreter_argv.
  destruct (safe_arguments argc argv) as [safe_argv n]. cbn [fst snd].
  intros Hlen Hws. rewrite Hpy3.
  assert (Hloop : widen_loop (Z.to_nat n) 0 safe_argv [] = Widened ws).
  { apply widen_loop_widened. rewrite drop_0. split; [done |]. by exists ws. }
  rewrite Hloop.
  assert (Hn : length ws = Z.to_nat n).
  { rewrite (Forall2_widen_length _ _ Hws), length_take. lia. }
  rewrite hand_over_argv_returns by (cbn [argv_length]; lia).
  cbn zeta. cbn [argv_take]. by rewrite take_ge by lia.
Qed.

(** X1. On Python 3, when [argv] holds at least [argc > 0] arguments and
    each of the first [argc] widens, [set_interpreter_argv] returns having
    made one set-argv call, with the count [argc] and the widened
    arguments in their order, and [sys.argv] holds exactly these [argc]
    wide strings. *)
Theorem set_interpreter_argv_widens (argc : Z) (args : list cstring)
  (add_current_dir_to_path : bool) (w : world) (ws : list wstring) :
  (3 <=? PY_MAJOR_VERSION) = true →
  0 < argc →
  (Z.to_nat argc ≤ length args)%nat →
  Forall2 (λ arg wide, widen_chars arg = Some wide)
    (take (Z.to_nat argc) args) ws →
  ∃ w',
    set_interpreter_argv argc (Some args) add_current_dir_to_path w
    = Returns tt w'
    ∧ sys_argv (rt w') = Some (wide_argv ws)
    ∧ length ws = Z.to_nat argc
    ∧ set_argv_calls
        (new_events w
           (set_interpreter_argv argc (Some args) add_current_dir_to_path w))
      = [(argc, wide_argv ws)].
Proof.
  intros Hpy3 Hpos Hlen Hws.
  pose proof (set_interpreter_argv_wide argc (Some args)
                add_current_dir_to_path w ws Hpy3) as Hrun.
  cbn zeta in Hrun. rewrite (safe_arguments_given _ _ Hpos) in Hrun.
  cbn [fst snd] in Hrun. specialize (Hrun Hlen Hws).
  eexists. split; [exact Hrun |]. split; [reflexivity |].
  split.
  - rewrite (Forall2_widen_length _ _ Hws), length_take. lia.
  - rewrite Hrun, new_events_returns. apply set_argv_calls_hand_over.
Qed.

(** X2. On Python 2 nothing is converted: when [argv] holds the entries
    the code reads, [set_interpreter_argv] returns having made one
    set-argv call with the host's own array and the count, and [sys.argv]
    holds the first [argc] arguments byte for byte. *)
Theorem set_interpreter_argv_python2 (argc : Z) (argv : option (list cstring))
  (add_current_dir_to_path : bool) (w : world) :
  (3 <=? PY_MAJOR_VERSION) = false →
  enough_arguments argc argv →
  ∃ w',
    set_interpreter_argv argc argv add_current_dir_to_path w = Returns tt w'
    ∧ sys_argv (rt w')
      = Some (narrow_argv (take (Z.to_nat (safe_arguments argc argv).2)
                             (safe_arguments argc argv).1))
    ∧ set_argv_calls
        (new_events w (set_interpreter_argv argc argv add_current_dir_to_path w))
      = [((safe_arguments argc argv).2,
          narrow_argv (safe_arguments argc argv).1)].
Proof.
  intros Hpy2 Hlen. unfold enough_arguments in Hlen.
  pose proof (set_interpreter_argv_run argc argv add_current_dir_to_path w)
    as Hrun. cbn zeta in Hrun. rewrite Hpy2 in Hrun.
  destruct Hrun as [[_ Hrun] | [Hshort _]]; [| lia].
  eexists. split; [exact Hrun |]. split; [reflexivity |].
  rewrite Hrun, new_events_returns. apply set_argv_calls_hand_over.
Qed.


(** X4. Whatever way [set_interpreter_argv] ends, it has touched nothing
    but [sys.argv] and [sys.path]: the interpreter is up or down as
    before, and the table of built-in modules, the built-in namespace, the
    module objects, the error indicator and the binding layer's memory
    are unchanged. *)
Theorem set_interpreter_argv_frame (argc : Z) (argv : option (list cstring))
  (add_current_dir_to_path : bool) (w w' : world) :
  final_world (set_interpreter_argv argc argv add_current_dir_to_path w)
  = Some w' →
  hp w' = hp w
  ∧ py_initialized (rt w') = py_initialized (rt w)
  ∧ PyImport_Inittab (rt w') = PyImport_Inittab (rt w)
  ∧ py_builtins (rt w') = py_builtins (rt w)
  ∧ py_modules (rt w') = py_modules (rt w)
  ∧ py_error (rt w') = py_error (rt w).
Proof.
  pose proof (set_interpreter_argv_run argc argv add_current_dir_to_path w)
    as Hrun. cbn zeta in Hrun.
  destruct (3 <=? PY_MAJOR_VERSION).
  - destruct Hrun as [(ws & _ & _ & ->) | [[_ ->] | [_ ->]]];
      intros [= <-]; by repeat split.
  - destruct Hrun as [[_ ->] | [_ ->]]; intros [= <-]; by repeat split.
Qed.

(** X5. A run of [set_interpreter_argv] that returns either changed
    nothing at all (an argument did not widen) or set [sys.argv]. In the
    second case, with [add_current_dir_to_path] the entry the runtime
    computes from the new [sys.argv] is put in front of [sys.path] on
    every version; without it, a version that has [PySys_SetArgvEx]
    leaves [sys.path] as it was. *)
Theorem set_interpreter_argv_sys_path (argc : Z) (argv : option (list cstring))
  (add_current_dir_to_path : bool) (w w' : world) :
  set_interpreter_argv argc argv add_current_dir_to_path w = Returns tt w' →
  w' = w
  ∨ ∃ a, sys_argv (rt w') = Some a
         ∧ (add_current_dir_to_path = true →
            sys_path (rt w') = script_dir a :: sys_path (rt w))
         ∧ (add_current_dir_to_path = false →
            lacks_PySys_SetArgvEx = false →
            sys_path (rt w') = sys_path (rt w)).
Proof.
  pose proof (set_interpreter_argv_run argc argv add_current_dir_to_path w)
    as Hrun. cbn zeta in Hrun.
  destruct (3 <=? PY_MAJOR_VERSION).
  - destruct Hrun as [(ws & _ & _ & ->) | [[_ ->] | [_ ->]]];
      intros [= <-]; [right | by left].
    eexists. split; [reflexivity |]. cbn [rt sys_path set_sys_path].
    split; [by intros -> | by intros -> ->].
  - destruct Hrun as [[_ ->] | [_ ->]]; intros [= <-]. right.
    eexists. split; [reflexivity |]. cbn [rt sys_path set_sys_path].
    split; [by intros -> | by intros -> ->].
Qed.



(** X7. On Python 3, for an [argv] that holds the entries the code reads,
    [set_interpreter_argv] returns with the process exactly as it was
    if and only if one of the first [argc] arguments does not widen. *)
Theorem set_interpreter_argv_unset_iff (argc : Z) (argv : option (list cstring))
  (add_current_dir_to_path : bool) (w : world) :
  (3 <=? PY_MAJOR_VERSION) = true →
  enough_arguments argc argv →
  set_interpreter_argv argc argv add_current_dir_to_path w = Returns tt w
  ↔ ∃ k arg, (k < Z.to_nat (safe_arguments argc argv).2)%nat
             ∧ (safe_arguments argc argv).1 !! k = Some arg
             ∧ widen_chars arg = None.
Proof.
  intros Hpy3 Hlen. unfold enough_arguments in Hlen.
  pose proof (set_interpreter_argv_run argc argv add_current_dir_to_path w)
    as Hrun. cbn zeta in Hrun. rewrite Hpy3 in Hrun.
  destruct Hrun as [(ws & Hws & _ & Hrun) | [[Hbad Hrun] | [Hshort _]]];
    [| done | lia].
  split.
  - rewrite Hrun. intros [= Hw]. exfalso.
    apply (f_equal (λ x, length (trace x))) in Hw. cbn [trace] in Hw.
    rewrite length_app in Hw.
    unfold hand_over_events in Hw.
    destruct lacks_PySys_SetArgvEx, add_current_dir_to_path; cbn in Hw; lia.
  - intros (k & arg & Hk & Harg & Hbad). exfalso.
    assert (Hin : take (Z.to_nat (safe_arguments argc argv).2)
                    (safe_arguments argc argv).1 !! k = Some arg).
    { by rewrite lookup_take_lt. }
    destruct (Forall2_lookup_l _ _ _ _ _ Hws Hin) as (wide & _ & Hwide).
    congruence.
Qed.

(** *** Start, stop and registration together *)




Lemma set_interpreter_argv_keeps argc argv add w w' :
  set_interpreter_argv argc argv add w = Returns tt w' →
  hp w' = hp w
  ∧ py_initialized (rt w') = py_initialized (rt w)
  ∧ PyImport_Inittab (rt w') = PyImport_Inittab (rt w).
Proof.
  pose proof (set_interpreter_argv_run argc argv add w) as Hrun.
  cbn zeta in Hrun.
  destruct (3 <=? PY_MAJOR_VERSION).
  - destruct Hrun as [(ws & _ & _ & ->) | [[_ ->] | [_ ->]]];
      intros [= <-]; by repeat split.
  - destruct Hrun as [[_ ->] | [_ ->]]; intros [= <-]; by repeat split.
Qed.

Lemma finalize_interpreter_returns w :
  py_initialized (rt w) = true →
  ∃ w', finalize_interpreter w = Returns tt w' ∧ rt w' = torn_down (rt w).
Proof.
  intros Hup. rewrite (finalize_interpreter_run w Hup). cbn zeta.
  destruct (selected_cell w PYBIND11_INTERNALS_ID); eauto.
Qed.


(** X9. When the runtime cannot come up, [initialize_interpreter] does not
    turn this into an exception: the process ends inside [Py_InitializeEx],
    which is the only call made, and no program arguments are set. *)
Theorem initialize_interpreter_fatal (init_signal_handlers : bool) (argc : Z)
  (argv : option (list cstring)) (add_current_dir_to_path : bool) (w : world) :
  py_initialized (rt w) = false →
  init_fails (rt w) = true →
  initialize_interpreter init_signal_handlers argc argv
    add_current_dir_to_path w
  = Terminates
      (World (rt w) (hp w)
         (trace w ++ [Call_Py_InitializeEx (if init_signal_handlers then 1 else 0)])).
Proof.
  intros Hdown Hinit. unfold initialize_interpreter, Py_IsInitialized. step.
  rewrite Hdown, (Py_InitializeEx_run _ w Hdown). cbn zeta. by rewrite Hinit.
Qed.


(** X11. Registrations accumulate in order: two calls of [embedded_module]
    that return leave the table extended by the two entries, the first
    before the second. Nothing compares the names, so registering one
    name twice leaves two entries. *)
Theorem embedded_module_twice (name1 name2 : string) (init1 init2 : init_t)
  (w w1 w2 : world) :
  embedded_module name1 init1 w = Returns tt w1 →
  embedded_module name2 init2 w1 = Returns tt w2 →
  PyImport_Inittab (rt w2)
  = PyImport_Inittab (rt w) ++ [(name1, init1); (name2, init2)]
  ∧ trace w2 = trace w ++ [Call_PyImport_AppendInittab name1 init1;
                           Call_PyImport_AppendInittab name2 init2]
  ∧ py_initialized (rt w2) = false.
Proof.
  intros H1 H2.
  destruct (py_initialized (rt w)) eqn:Hup;
    [by rewrite (embedded_module_running _ _ _ Hup) in H1 |].
  rewrite (embedded_module_down _ _ _ Hup) in H1. cbn zeta in H1.
  destruct (inittab_alloc_fails (PyImport_Inittab (rt w))); [done |].
  injection H1 as <-.
  rewrite embedded_module_down in H2 by (cbn; exact Hup). cbn zeta in H2.
  cbn [rt hp trace set_inittab PyImport_Inittab] in H2.
  destruct (inittab_alloc_fails _); [done |]. injection H2 as <-.
  cbn. rewrite <- !app_assoc. by rewrite Hup.
Qed.

(** X12. [embedded_module] throws nothing but its two errors, and a
    registration that throws has left the table of built-in modules, the
    rest of the runtime and the binding layer's memory as they were. *)
Theorem embedded_module_failure (name : string) (init : init_t)
  (w w' : world) (e : exception) :
  embedded_module name init w = Throws e w' →
  (e = runtime_error
         "Can't add new modules after the interpreter has been initialized"
   ∨ e = runtime_error "Insufficient memory to add a new module")
  ∧ rt w' = rt w
  ∧ hp w' = hp w.
Proof.
  destruct (py_initialized (rt w)) eqn:Hup.
  - rewrite (embedded_module_running _ _ _ Hup). intros [= <- <-]. eauto.
  - rewrite (embedded_module_down _ _ _ Hup). cbn zeta.
    destruct (inittab_alloc_fails _); [| done]. intros [= <- <-]. eauto.
Qed.

(** X13. Registration around a session: a module registered before the
    start is in the table while the interpreter runs; during the session
    [embedded_module] throws and changes nothing; once
    [finalize_interpreter] has returned the table still holds what was
    registered and [embedded_module] no longer refuses for the state of
    the interpreter. *)
Theorem embedded_module_around_session (name : string) (init : init_t)
  (isg : bool) (argc : Z) (argv : option (list cstring)) (add : bool)
  (w0 w1 : world) :
  initialize_interpreter isg argc argv add w0 = Returns tt w1 →
  PyImport_Inittab (rt w1) = PyImport_Inittab (rt w0)
  ∧ embedded_module name init w1
    = Throws (runtime_error
        "Can't add new modules after the interpreter has been initialized") w1
  ∧ ∃ w2,
      finalize_interpreter w1 = Returns tt w2
      ∧ PyImport_Inittab (rt w2) = PyImport_Inittab (rt w0)
      ∧ ∀ w', embedded_module name init w2
              ≠ Throws (runtime_error
                  "Can't add new modules after the interpreter has been initialized")
                  w'.
Proof.
  intros Hstart.
  pose proof (initialize_interpreter_returns _ _ _ _ _ _ Hstart) as [Hdown Hup].
  assert (Htab : PyImport_Inittab (rt w1) = PyImport_Inittab (rt w0)).
  { unfold initialize_interpreter, Py_IsInitialized in Hstart. step.
    rewrite Hdown, (Py_InitializeEx_run _ w0 Hdown) in Hstart.
    cbn zeta in Hstart. destruct (init_fails (rt w0)); [done |].
    by destruct (set_interpreter_argv_keeps _ _ _ _ _ Hstart) as (_ & _ & ->). }
  split; [exact Htab |].
  split; [by apply embedded_module_running |].
  destruct (finalize_interpreter_returns w1 Hup) as (w2 & Hstop & Hrt).
  exists w2. split; [exact Hstop |]. split; [by rewrite Hrt |].
  intros w'. rewrite embedded_module_down by by rewrite Hrt.
  cbn zeta. by destruct (inittab_alloc_fails _).
Qed.

(** *** More on the module wrapper *)

(** X14. When the body of an embedded module returns, the wrapper returns
    the module object the constructor made, and adds nothing of its own:
    the process is as the body left it, with no error set by the
    wrapper. *)
Theorem pybind11_init_wrapper_success (name : string)
  (pybind11_init : pymodule → M unit) (w w1 w2 : world) (m : pymodule) :
  module_ctor name w = Returns m w1 →
  pybind11_init m w1 = Returns tt w2 →
  pybind11_init_wrapper name pybind11_init w = Returns (Some m) w2
  ∧ (∀ ty msg,
       Call_PyErr_SetString ty msg
       ∉ new_events w2 (pybind11_init_wrapper name pybind11_init w)).
Proof.
  intros Hm Hbody.
  assert (Hrun : pybind11_init_wrapper name pybind11_init w
                 = Returns (Some m) w2).
  { rewrite (pybind11_init_wrapper_run _ _ _ _ _ Hm).
    unfold try_catch. unfold mbind at 1, M_bind at 1. by rewrite Hbody. }
  split; [exact Hrun |]. intros ty msg. rewrite Hrun.
  unfold new_events; cbn [final_world]. rewrite drop_all. apply not_elem_of_nil.
Qed.

(** X15. The module object is constructed outside the [try] block: when
    the constructor throws, the exception leaves the wrapper as it is,
    also one derived from [std::exception]; the body is not run and no
    [ImportError] is set. *)
Theorem pybind11_init_wrapper_ctor_throws (name : string)
  (pybind11_init : pymodule → M unit) (w w1 : world) (e : exception) :
  module_ctor name w = Throws e w1 →
  pybind11_init_wrapper name pybind11_init w = Throws e w1
  ∧ (∀ body', pybind11_init_wrapper name body' w = Throws e w1).
Proof.
  intros Hm.
  assert (Hany : ∀ body', pybind11_init_wrapper name body' w = Throws e w1).
  { intros body'. unfold pybind11_init_wrapper.
    unfold mbind at 1, M_bind at 1. by rewrite Hm. }
  split; [apply Hany | exact Hany].
Qed.

(** X16. A value the body throws whose type does not derive from
    [std::exception] is not caught: the wrapper throws it on, adds no
    call of its own and returns no result. *)
Theorem pybind11_init_wrapper_rethrows (name : string)
  (pybind11_init : pymodule → M unit) (w w1 w2 : world) (m : pymodule)
  (e : exception) :
  module_ctor name w = Returns m w1 →
  pybind11_init m w1 = Throws e w2 →
  what e = None →
  pybind11_init_wrapper name pybind11_init w = Throws e w2
  ∧ (∀ r w', pybind11_init_wrapper name pybind11_init w ≠ Returns r w').
Proof.
  intros Hm Hbody Hwhat.
  assert (Hrun : pybind11_init_wrapper name pybind11_init w = Throws e w2).
  { rewrite (pybind11_init_wrapper_run _ _ _ _ _ Hm).
    unfold try_catch. unfold mbind at 1, M_bind at 1. rewrite Hbody.
    by destruct e. }
  split; [exact Hrun |]. intros r w'. by rewrite Hrun.
Qed.

(** X17. The exported initialiser [pybind11_init_impl] does to the process
    what the wrapper does and throws what it throws. On Python 3 it
    returns the wrapper's result; on Python 2 it returns nothing, so a
    failed initialisation shows only in the error indicator. *)
Theorem pybind11_init_impl_wrapper (name : string)
  (pybind11_init : pymodule → M unit) (w : world) :
  final_world (pybind11_init_impl name pybind11_init w)
  = final_world (pybind11_init_wrapper name pybind11_init w)
  ∧ (∀ e w', pybind11_init_impl name pybind11_init w = Throws e w'
             ↔ pybind11_init_wrapper name pybind11_init w = Throws e w')
  ∧ (∀ r w', pybind11_init_wrapper name pybind11_init w = Returns r w' →
             pybind11_init_impl name pybind11_init w
             = Returns (if 3 <=? PY_MAJOR_VERSION then Some r else None) w').
Proof.
  unfold pybind11_init_impl.
  destruct (3 <=? PY_MAJOR_VERSION); unfold mbind, M_bind, mret, M_ret;
    destruct (pybind11_init_wrapper name pybind11_init w) as [r w1|e w1|w1|];
    repeat split; intros; by simplify_eq.
Qed.

(** *** More on the guard and on shutdown *)

(** X18. A guard that has been constructed owns the session: the
    interpreter was down before and is up after the constructor, the
    guard's destructor returns with the interpreter down again, and the
    table of built-in modules is what it was before the guard. *)
Theorem scoped_interpreter_scope (init_signal_handlers : bool) (argc : Z)
  (argv : option (list cstring)) (add_current_dir_to_path : bool)
  (w w1 : world) (g : scoped_interpreter) :
  scoped_interpreter_ctor init_signal_handlers argc argv
    add_current_dir_to_path w = Returns g w1 →
  is_valid g = true
  ∧ py_initialized (rt w) = false
  ∧ py_initialized (rt w1) = true
  ∧ ∃ w2, scoped_interpreter_dtor g w1 = Returns tt w2
          ∧ py_initialized (rt w2) = false
          ∧ PyImport_Inittab (rt w2) = PyImport_Inittab (rt w1).
Proof.
  unfold scoped_interpreter_ctor. unfold mbind, M_bind, mret, M_ret.
  destruct (initialize_interpreter _ _ _ _ w) as [[] w1'| | |] eqn:Hinit;
    try done.
  intros [= <- <-].
  apply initialize_interpreter_returns in Hinit as [Hdown Hup].
  split; [done |]. split; [done |]. split; [done |].
  destruct (finalize_interpreter_returns w1' Hup) as (w2 & Hstop & Hrt).
  exists w2. split; [exact Hstop |]. by rewrite Hrt.
Qed.

(** X19. While the interpreter runs no second guard can be made: the
    constructor throws "The interpreter is already running", no guard
    results, and the process, the running interpreter included, is left
    as it was. *)
Theorem scoped_interpreter_second (init_signal_handlers : bool) (argc : Z)
  (argv : option (list cstring)) (add_current_dir_to_path : bool) (w : world) :
  py_initialized (rt w) = true →
  scoped_interpreter_ctor init_signal_handlers argc argv
    add_current_dir_to_path w
  = Throws (runtime_error "The interpreter is already running") w.
Proof.
  intros Hup. unfold scoped_interpreter_ctor. unfold mbind, M_bind.
  by rewrite (initialize_interpreter_running _ _ _ _ w Hup).
Qed.

(** X20. [finalize_interpreter] clears one cell only: every cell other
    than the selected one holds afterwards what [Py_Finalize] left in it.
    In particular, when the built-in namespace stashes a capsule for a
    cell other than the static of [get_internals_pp], the static's cell
    is not cleared. *)
Theorem finalize_interpreter_other_cells (w : world) :
  py_initialized (rt w) = true →
  let h1 := finalize_teardown (rt w) (hp w) in
  ∃ w',
    finalize_interpreter w = Returns tt w'
    ∧ (∀ c, selected_cell w PYBIND11_INTERNALS_ID ≠ Some c →
            cells (hp w') !! c = cells h1 !! c)
    ∧ (∀ p q, py_builtins (rt w) !! PYBIND11_INTERNALS_ID = Some (PyCapsule p) →
              internals_pp (hp w) = Some q → q ≠ p →
              cells (hp w') !! p = None
              ∧ cells (hp w') !! q = cells h1 !! q).
Proof.
  intros Hup h1.
  pose proof (finalize_interpreter_run w Hup) as Hrun. cbn zeta in Hrun.
  fold h1 in Hrun.
  assert (Hother : ∀ w', finalize_interpreter w = Returns tt w' →
            ∀ c, selected_cell w PYBIND11_INTERNALS_ID ≠ Some c →
                 cells (hp w') !! c = cells h1 !! c).
  { intros w' Hw' c Hc. rewrite Hrun in Hw'.
    destruct (selected_cell w PYBIND11_INTERNALS_ID) as [cell|];
      injection Hw' as <-; cbn [hp cells]; [| done].
    apply lookup_delete_ne. congruence. }
  assert (∃ w', finalize_interpreter w = Returns tt w') as [w' Hw'].
  { rewrite Hrun. destruct (selected_cell w PYBIND11_INTERNALS_ID); eauto. }
  exists w'. split; [exact Hw' |]. split; [by apply Hother |].
  intros p q Hp Hq Hne.
  assert (Hsel : selected_cell w PYBIND11_INTERNALS_ID = Some p).
  { unfold selected_cell, stashed_cell. by rewrite Hp. }
  split.
  - rewrite Hrun, Hsel in Hw'. injection Hw' as <-. cbn [hp cells].
    apply lookup_delete_eq.
  - apply (Hother w' Hw'). rewrite Hsel. congruence.
Qed.

(** X21. [finalize_interpreter] releases at most one object: an internals
    object that is allocated when [Py_Finalize] returns and is not
    afterwards is the one the selected cell pointed to, and nothing is
    allocated by the function itself. *)
Theorem finalize_interpreter_one_delete (w : world) :
  py_initialized (rt w) = true →
  let h1 := finalize_teardown (rt w) (hp w) in
  ∃ w',
    finalize_interpreter w = Returns tt w'
    ∧ live_internals (hp w') ⊆ live_internals h1
    ∧ ∀ a, a ∈ live_internals h1 → a ∉ live_internals (hp w') →
           ∃ cell, selected_cell w PYBIND11_INTERNALS_ID = Some cell
                   ∧ cells h1 !! cell = Some a.
Proof.
  intros Hup h1.
  pose proof (finalize_interpreter_run w Hup) as Hrun. cbn zeta in Hrun.
  fold h1 in Hrun.
  destruct (selected_cell w PYBIND11_INTERNALS_ID) as [cell|] eqn:Hsel.
  - eexists. split; [exact Hrun |]. cbn [hp live_internals].
    destruct (cells h1 !! cell) as [a0|] eqn:Hcell.
    + split.
      * intros a Ha. by apply elem_of_difference in Ha as [Ha _].
      * intros a Ha Hgone. exists cell. split; [done |].
        destruct (decide (a = a0)) as [-> | Hne]; [done |].
        exfalso. apply Hgone. apply elem_of_difference. split; [done |].
        by intros ->%elem_of_singleton.
    + split; [done |]. intros a Ha Hgone. by destruct Hgone.
  - eexists. split; [exact Hrun |]. cbn [hp].
    split; [done |]. intros a Ha Hgone. by destruct Hgone.
Qed.

(** X22. An entry of the built-in namespace under the internals identifier
    that is not a capsule is ignored: no pointer is taken from it, and the
    cell that is cleared is the static of [get_internals_pp] (none when
    the static is null). *)
Theorem finalize_interpreter_not_a_capsule (w : world) (o : positive) :
  py_initialized (rt w) = true →
  py_builtins (rt w) !! PYBIND11_INTERNALS_ID = Some (PyOther o) →
  let h1 := finalize_teardown (rt w) (hp w) in
  selected_cell w PYBIND11_INTERNALS_ID = internals_pp (hp w)
  ∧ new_events w (finalize_interpreter w) =
      [Call_PyEval_GetBuiltins; Call_get_internals_pp;
       Call_builtins_contains PYBIND11_INTERNALS_ID; Call_Py_Finalize]
      ++ match internals_pp (hp w) with
         | Some cell => [Op_delete (cells h1 !! cell); Op_store_null cell]
         | None => []
         end
  ∧ ∃ w', finalize_interpreter w = Returns tt w'
          ∧ match internals_pp (hp w) with
            | Some cell => cells (hp w') = delete cell (cells h1)
            | None => hp w' = h1
            end.
Proof.
  intros Hup Hobj h1.
  pose proof (finalize_interpreter_run w Hup) as Hrun. cbn zeta in Hrun.
  fold h1 in Hrun.
  assert (Hst : stashed_cell (rt w) PYBIND11_INTERNALS_ID = None).
  { unfold stashed_cell. by rewrite Hobj. }
  assert (Hsel : selected_cell w PYBIND11_INTERNALS_ID = internals_pp (hp w)).
  { unfold selected_cell. by rewrite Hst. }
  split; [exact Hsel |]. rewrite Hsel in Hrun. rewrite Hrun.
  unfold shutdown_prefix. rewrite Hst. cbn [app].
  destruct (internals_pp (hp w)) as [cell|].
  - split; [| eauto].
    unfold new_events; cbn [final_world trace].
    by rewrite drop_app_length'.
  - split; [| eauto].
    unfold new_events; cbn [final_world trace].
    by rewrite drop_app_length'.
Qed.

End Facts.

(** ** Concrete runs *)

Lemma embedded_module_errors_witness :
  ∃ w', embedded_module (P:=Demo.py38) "example" 5 Demo.down = Returns tt w'
        ∧ PyImport_Inittab (rt w') = [("example", 5%positive)]
        ∧ py_initialized (rt w') = false.
Proof.
  destruct (embedded_module_errors (P:=Demo.py38) "example" 5 Demo.down)
    as (_ & Hdown & Hok).
  destruct (Hdown eq_refl) as (_ & _ & Hret).
  destruct (proj2 Hret (ex_intro _ _ eq_refl)) as [w' Hw'].
  exists w'. destruct (Hok w' Hw') as (Hrt & _ & Hinit & _).
  split; [exact Hw' |]. split; [by rewrite Hrt | exact Hinit].
Defined.

Lemma finalize_interpreter_order_witness :
  ∃ w', finalize_interpreter (P:=Demo.py38_recreating) Demo.up_with_capsule
        = Returns tt w'
        ∧ py_initialized (rt w') = false
        ∧ cells (hp w') !! 1%positive = None
        ∧ (9%positive ∉ live_internals (hp w'))
        ∧ new_events Demo.up_with_capsule
            (finalize_interpreter (P:=Demo.py38_recreating) Demo.up_with_capsule)
          = [Call_PyEval_GetBuiltins; Call_get_internals_pp;
             Call_builtins_contains "__pybind11_internals_v4__";
             Call_capsule_pointer "__pybind11_internals_v4__";
             Call_Py_Finalize; Op_delete (Some 9%positive);
             Op_store_null 1%positive].
Proof.
  destruct (finalize_interpreter_order (P:=Demo.py38_recreating)
              Demo.up_with_capsule eq_refl)
    as (w' & Hrun & Hev & _ & _ & _ & Hdown & _ & Hcell).
  exists w'. split; [exact Hrun |]. split; [exact Hdown |].
  change (selected_cell Demo.up_with_capsule PYBIND11_INTERNALS_ID)
    with (Some 1%positive) in Hcell.
  destruct Hcell as (_ & Hnull & Hfree).
  split; [exact Hnull |].
  split; [exact (proj2 (Hfree 9%positive eq_refl)) | exact Hev].
Defined.

Lemma finalize_interpreter_null_cell_witness :
  ∃ w', finalize_interpreter (P:=Demo.py38) Demo.up_plain = Returns tt w'
        ∧ hp w' = hp Demo.up_plain.
Proof.
  destruct (finalize_interpreter_null_cell (P:=Demo.py38) Demo.up_plain
              eq_refl eq_refl) as (w' & Hrun & _ & _ & Hhp & _).
  exists w'. split; [exact Hrun | exact Hhp].
Defined.

Lemma initialize_interpreter_twice_witness :
  ∃ w, initialize_interpreter (P:=Demo.py38) true 0 None true Demo.down
       = Returns tt w
       ∧ initialize_interpreter (P:=Demo.py38) false 2
           (Some [Demo.bytes "prog"; Demo.bytes "-v"]) false w
         = Throws (runtime_error "The interpreter is already running") w.
Proof.
  eexists. split; [vm_compute; reflexivity |].
  apply (initialize_interpreter_twice (P:=Demo.py38)).
  right. exists true, 0, None, true, Demo.down. vm_compute. reflexivity.
Defined.

Lemma scoped_interpreter_moved_once_witness :
  ∃ g1 w1 w2,
    scoped_interpreter_ctor (P:=Demo.py38) true 0 None true Demo.down
    = Returns g1 w1
    ∧ scoped_interpreter_dtor (P:=Demo.py38) (scoped_interpreter_move g1).1 w1
      = Returns tt w2
    ∧ scoped_interpreter_dtor (P:=Demo.py38) (scoped_interpreter_move g1).2 w2
      = Returns tt w2
    ∧ py_initialized (rt w2) = false.
Proof.
  assert (Hctor : ∃ g1 w1,
            scoped_interpreter_ctor (P:=Demo.py38) true 0 None true Demo.down
            = Returns g1 w1).
  { do 2 eexists. vm_compute. reflexivity. }
  destruct Hctor as (g1 & w1 & Hctor).
  destruct (scoped_interpreter_moved_once (P:=Demo.py38) _ _ _ _ _ _ _ Hctor)
    as (w2 & Hd2 & _ & Hd1 & _ & _ & Hdown & _).
  exists g1, w1, w2. repeat split; assumption.
Defined.

Lemma set_interpreter_argv_empty_witness :
  ∃ w', set_interpreter_argv (P:=Demo.py38) 0 None true Demo.up_plain
        = Returns tt w'
        ∧ sys_argv (rt w') = Some (wide_argv [[]])
        ∧ new_events Demo.up_plain
            (set_interpreter_argv (P:=Demo.py38) 0 None true Demo.up_plain)
          = [Call_PySys_SetArgvEx 1 (wide_argv [[]]) 1].
Proof.
  destruct (set_interpreter_argv_empty (P:=Demo.py38) 0 None true Demo.up_plain)
    as (_ & _ & _ & Hrun); [by left |].
  rewrite (Hrun [] eq_refl eq_refl).
  eexists. split; [vm_compute; reflexivity |]. by split.
Defined.

Lemma initialize_interpreter_bad_argument_witness :
  ∃ w1, initialize_interpreter (P:=Demo.py38) true 3
          (Some [Demo.bytes "prog"; Demo.bad_arg; Demo.bytes "x"]) true Demo.down
        = Returns tt w1
        ∧ py_initialized (rt w1) = true
        ∧ sys_argv (rt w1) = None.
Proof.
  eexists.
  refine (let Hthm := initialize_interpreter_bad_argument (P:=Demo.py38) true 3
            (Some [Demo.bytes "prog"; Demo.bad_arg; Demo.bytes "x"]) true
            Demo.down 1 Demo.bad_arg _ eq_refl eq_refl _ eq_refl eq_refl in _).
  - destruct Hthm as (_ & Hrun & Hup & Hargv & _).
    split; [exact Hrun |]. split; [exact Hup | exact Hargv].
  Unshelve.
  + by vm_compute.
  + vm_compute. lia.
Defined.

Lemma pybind11_init_wrapper_converts_witness :
  ∃ w', pybind11_init_wrapper (P:=Demo.py38) "example"
          (fun _ => throw (std_exception "bad initialiser")) Demo.up_plain
        = Returns None w'
        ∧ py_error (rt w') = Some (PyExc_ImportError, "bad initialiser").
Proof.
  eexists. split.
  - eapply (pybind11_init_wrapper_converts (P:=Demo.py38) "example"
              (fun _ => throw (std_exception "bad initialiser")) Demo.up_plain).
    + vm_compute. reflexivity.
    + reflexivity.
    + reflexivity.
  - reflexivity.
Defined.

(** C7 as stated fails: a body that throws a value whose type does not
    derive from [std::exception] (here [throw 42]) is not caught. The
    exception leaves the wrapper and no [ImportError] is set. *)
Lemma pybind11_init_wrapper_counterexample :
  ∃ w', pybind11_init_wrapper (P:=Demo.py38) "example"
          (fun _ => throw (non_std_exception 42)) Demo.up_plain
        = Throws (non_std_exception 42) w'
        ∧ py_error (rt w') = None
        ∧ trace w' = [Call_module_ctor "example"].
Proof. eexists. split; [vm_compute; reflexivity |]. by split. Qed.

(** C8 on the code. Python 3.8 has [PySys_SetArgvEx]: started with
    [add_current_dir_to_path] false, [sys.path] is the default one.
    Python 3.1.2 has not: [PySys_SetArgv] puts the empty string in front
    and the pop that follows removes the last entry, the site-packages
    directory, so the entry that was to be dropped stays first. *)
Theorem set_interpreter_argv_pops_last :
  ∃ w38 w31,
    initialize_interpreter (P:=Demo.py38) true 1 (Some [Demo.bytes "prog"])
      false Demo.down = Returns tt w38
    ∧ initialize_interpreter (P:=Demo.py31) true 1 (Some [Demo.bytes "prog"])
        false Demo.down = Returns tt w31
    ∧ lacks_PySys_SetArgvEx (P:=Demo.py38) = false
    ∧ lacks_PySys_SetArgvEx (P:=Demo.py31) = true
    ∧ sys_path (rt w38) = ["/usr/lib/python"; "/usr/lib/python/site-packages"]
    ∧ sys_path (rt w31) = [""; "/usr/lib/python"]
    ∧ trace w38 = [Call_Py_InitializeEx 1;
                   Call_PySys_SetArgvEx 1 (wide_argv [[112; 114; 111; 103]%N]) 0]
    ∧ trace w31 = [Call_Py_InitializeEx 1;
                   Call_PySys_SetArgv 1 (wide_argv [[112; 114; 111; 103]%N]);
                   Call_sys_path_pop].
Proof.
  do 2 eexists.
  split; [vm_compute; reflexivity |].
  split; [vm_compute; reflexivity |].
  by repeat split.
Qed.

(** ** Concrete runs of the further properties *)

Lemma set_interpreter_argv_widens_witness :
  ∃ w', set_interpreter_argv (P:=Demo.py38) 2
          (Some [Demo.bytes "prog"; Demo.bytes "-v"]) true Demo.up_plain
        = Returns tt w'
        ∧ sys_argv (rt w')
          = Some (wide_argv [[112; 114; 111; 103]%N; [45; 118]%N]).
Proof.
  destruct (set_interpreter_argv_widens (P:=Demo.py38) 2
              [Demo.bytes "prog"; Demo.bytes "-v"] true Demo.up_plain
              [[112; 114; 111; 103]%N; [45; 118]%N])
    as (w' & Hrun & Hargv & _).
  - reflexivity.
  - lia.
  - cbn. lia.
  - repeat constructor.
  - exists w'. by split.
Defined.

Lemma set_interpreter_argv_python2_witness :
  ∃ w', set_interpreter_argv (P:=Demo.py27) 1
          (Some [Demo.bad_arg; Demo.bytes "ignored"]) false Demo.up_plain
        = Returns tt w'
        ∧ sys_argv (rt w') = Some (narrow_argv [Demo.bad_arg]).
Proof.
  destruct (set_interpreter_argv_python2 (P:=Demo.py27) 1
              (Some [Demo.bad_arg; Demo.bytes "ignored"]) false Demo.up_plain)
    as (w' & Hrun & Hargv & _).
  - reflexivity.
  - unfold enough_arguments. cbn. lia.
  - exists w'. by split.
Defined.


Lemma set_interpreter_argv_frame_witness :
  ∃ w', final_world (set_interpreter_argv (P:=Demo.py38) 1
                       (Some [Demo.bytes "prog"]) true Demo.up_with_capsule)
        = Some w'
        ∧ hp w' = hp Demo.up_with_capsule
        ∧ py_builtins (rt w') = py_builtins (rt Demo.up_with_capsule).
Proof.
  eexists. split; [vm_compute; reflexivity |].
  refine (let Hthm := set_interpreter_argv_frame (P:=Demo.py38) 1
            (Some [Demo.bytes "prog"]) true Demo.up_with_capsule _ _ in _).
  - destruct Hthm as (Hhp & _ & _ & Hb & _). split; [exact Hhp | exact Hb].
  Unshelve. vm_compute. reflexivity.
Defined.

Lemma set_interpreter_argv_sys_path_witness :
  ∃ w', set_interpreter_argv (P:=Demo.py38) 1 (Some [Demo.bytes "prog"]) true
          Demo.up_plain = Returns tt w'
        ∧ sys_path (rt w') = ["" ; "/usr/lib/python"].
Proof.
  assert (Hrun : ∃ w', set_interpreter_argv (P:=Demo.py38) 1
                         (Some [Demo.bytes "prog"]) true Demo.up_plain
                       = Returns tt w').
  { eexists. vm_compute. reflexivity. }
  destruct Hrun as [w' Hrun]. exists w'. split; [exact Hrun |].
  destruct (set_interpreter_argv_sys_path (P:=Demo.py38) _ _ _ _ _ Hrun)
    as [-> | (a & _ & Hadd & _)].
  - vm_compute in Hrun. discriminate.
  - exact (Hadd eq_refl).
Defined.


Lemma set_interpreter_argv_unset_iff_witness :
  set_interpreter_argv (P:=Demo.py38) 2
    (Some [Demo.bytes "prog"; Demo.bad_arg]) true Demo.up_plain
  = Returns tt Demo.up_plain.
Proof.
  apply (set_interpreter_argv_unset_iff (P:=Demo.py38) 2
           (Some [Demo.bytes "prog"; Demo.bad_arg]) true Demo.up_plain).
  - reflexivity.
  - unfold enough_arguments. cbn. lia.
  - exists 1%nat, Demo.bad_arg. split; [cbn; lia |]. by split.
Defined.


Lemma initialize_interpreter_fatal_witness :
  ∃ w', initialize_interpreter (P:=Demo.py38_no_start) true 0 None true Demo.down
        = Terminates w'
        ∧ trace w' = [Call_Py_InitializeEx 1].
Proof.
  eexists. split.
  - apply (initialize_interpreter_fatal (P:=Demo.py38_no_start) true 0 None true
             Demo.down); reflexivity.
  - reflexivity.
Defined.


Lemma embedded_module_twice_witness :
  ∃ w1 w2,
    embedded_module (P:=Demo.py38) "example" 5 Demo.down = Returns tt w1
    ∧ embedded_module (P:=Demo.py38) "example" 6 w1 = Returns tt w2
    ∧ PyImport_Inittab (rt w2)
      = [("example", 5%positive); ("example", 6%positive)].
Proof.
  do 2 eexists.
  split; [vm_compute; reflexivity |]. split; [vm_compute; reflexivity |].
  refine (proj1 (embedded_module_twice (P:=Demo.py38) "example" "example" 5 6
                   Demo.down _ _ _ _)); vm_compute; reflexivity.
Defined.

Lemma embedded_module_failure_witness :
  ∃ e w', embedded_module (P:=Demo.py38) "example" 5 Demo.up_plain = Throws e w'
          ∧ rt w' = rt Demo.up_plain.
Proof.
  do 2 eexists. split; [vm_compute; reflexivity |].
  refine (proj1 (proj2 (embedded_module_failure (P:=Demo.py38) "example" 5
                          Demo.up_plain _ _ _))); vm_compute; reflexivity.
Defined.

Lemma embedded_module_around_session_witness :
  ∃ w1, initialize_interpreter (P:=Demo.py38) true 0 None true Demo.down
        = Returns tt w1
        ∧ embedded_module (P:=Demo.py38) "example" 5 w1
          = Throws (runtime_error
              "Can't add new modules after the interpreter has been initialized")
              w1.
Proof.
  assert (Hstart : ∃ w1, initialize_interpreter (P:=Demo.py38) true 0 None true
                           Demo.down = Returns tt w1).
  { eexists. vm_compute. reflexivity. }
  destruct Hstart as [w1 Hstart]. exists w1. split; [exact Hstart |].
  exact (proj1 (proj2 (embedded_module_around_session (P:=Demo.py38)
                         "example" 5 _ _ _ _ _ _ Hstart))).
Defined.

Lemma pybind11_init_wrapper_success_witness :
  ∃ w', pybind11_init_wrapper (P:=Demo.py38) "example" (fun _ => mret tt)
          Demo.up_plain = Returns (Some "example") w'
        ∧ py_modules (rt w') = ["example"].
Proof.
  eexists. split.
  - refine (proj1 (pybind11_init_wrapper_success (P:=Demo.py38) "example"
                     (fun _ => mret tt) Demo.up_plain _ _ "example" _ _));
      vm_compute; reflexivity.
  - reflexivity.
Defined.

Lemma pybind11_init_wrapper_ctor_throws_witness :
  ∃ w', pybind11_init_wrapper (P:=Demo.py38_no_module) "example"
          (fun _ => mret tt) Demo.up_plain
        = Throws (runtime_error "Internal error in module::module()") w'
        ∧ py_error (rt w') = None.
Proof.
  eexists. split.
  - refine (proj1 (pybind11_init_wrapper_ctor_throws (P:=Demo.py38_no_module)
                     "example" (fun _ => mret tt) Demo.up_plain _ _ _));
      vm_compute; reflexivity.
  - reflexivity.
Defined.

Lemma pybind11_init_wrapper_rethrows_witness :
  ∃ w', pybind11_init_wrapper (P:=Demo.py38) "example"
          (fun _ => throw (non_std_exception 7)) Demo.up_plain
        = Throws (non_std_exception 7) w'.
Proof.
  eexists.
  refine (proj1 (pybind11_init_wrapper_rethrows (P:=Demo.py38) "example"
                   (fun _ => throw (non_std_exception 7)) Demo.up_plain
                   _ _ "example" (non_std_exception 7) _ _ eq_refl));
    vm_compute; reflexivity.
Defined.

Lemma pybind11_init_impl_wrapper_witness :
  ∃ w', pybind11_init_impl (P:=Demo.py27) "example"
          (fun _ => throw (std_exception "bad initialiser")) Demo.up_plain
        = Returns None w'
        ∧ py_error (rt w') = Some (PyExc_ImportError, "bad initialiser").
Proof.
  eexists. split.
  - eapply (proj2 (proj2 (pybind11_init_impl_wrapper (P:=Demo.py27) "example"
                            (fun _ => throw (std_exception "bad initialiser"))
                            Demo.up_plain)) None).
    vm_compute. reflexivity.
  - reflexivity.
Defined.

Lemma scoped_interpreter_scope_witness :
  ∃ g w1 w2,
    scoped_interpreter_ctor (P:=Demo.py38) true 0 None true Demo.down
    = Returns g w1
    ∧ scoped_interpreter_dtor (P:=Demo.py38) g w1 = Returns tt w2
    ∧ py_initialized (rt w2) = false.
Proof.
  assert (Hctor : ∃ g w1,
            scoped_interpreter_ctor (P:=Demo.py38) true 0 None true Demo.down
            = Returns g w1).
  { do 2 eexists. vm_compute. reflexivity. }
  destruct Hctor as (g & w1 & Hctor).
  destruct (scoped_interpreter_scope (P:=Demo.py38) _ _ _ _ _ _ _ Hctor)
    as (_ & _ & _ & w2 & Hdtor & Hdown & _).
  exists g, w1, w2. by repeat split.
Defined.

Lemma scoped_interpreter_second_witness :
  scoped_interpreter_ctor (P:=Demo.py38) true 0 None true Demo.up_plain
  = Throws (runtime_error "The interpreter is already running") Demo.up_plain.
Proof.
  apply (scoped_interpreter_second (P:=Demo.py38) true 0 None true Demo.up_plain).
  reflexivity.
Defined.

Lemma finalize_interpreter_other_cells_witness :
  ∃ w', finalize_interpreter (P:=Demo.py38) Demo.up_two_cells = Returns tt w'
        ∧ cells (hp w') !! 1%positive = None
        ∧ cells (hp w') !! 2%positive = Some 8%positive.
Proof.
  destruct (finalize_interpreter_other_cells (P:=Demo.py38) Demo.up_two_cells
              eq_refl) as (w' & Hrun & _ & Hcaps).
  exists w'. split; [exact Hrun |].
  exact (Hcaps 1%positive 2%positive eq_refl eq_refl ltac:(discriminate)).
Defined.

Lemma finalize_interpreter_one_delete_witness :
  ∃ w', finalize_interpreter (P:=Demo.py38) Demo.up_two_cells = Returns tt w'
        ∧ live_internals (hp w') ⊆ {[ 7%positive; 8%positive ]}.
Proof.
  destruct (finalize_interpreter_one_delete (P:=Demo.py38) Demo.up_two_cells
              eq_refl) as (w' & Hrun & Hsub & _).
  exists w'. split; [exact Hrun | exact Hsub].
Defined.

Lemma finalize_interpreter_not_a_capsule_witness :
  ∃ w', finalize_interpreter (P:=Demo.py38) Demo.up_not_capsule = Returns tt w'
        ∧ cells (hp w') = ∅.
Proof.
  destruct (finalize_interpreter_not_a_capsule (P:=Demo.py38)
              Demo.up_not_capsule 3 eq_refl eq_refl)
    as (_ & _ & w' & Hrun & Hcells).
  exists w'. split; [exact Hrun |].
  change (internals_pp (hp Demo.up_not_capsule)) with (Some 2%positive) in Hcells.
  rewrite Hcells. apply delete_singleton_eq.
Defined.
